(** * Reboot-aware remote command execution (vmconnector.py)

    A shallow embedding of the class [RemoteExecutor] of [vmconnector.py]:
    the liveness probe [is_alive], the boot-time tracker [reconnect],
    [was_rebooted], the recovery loop [_wait_for_reboot_and_reconnect] and
    the command executor [stream_execute].

    The object's mutable fields and the bookkeeping of the outside world
    (how many processes were started, what the clock reads) are threaded
    through a state-and-exception monad.  The outside world itself (what
    each started process answers, how long it takes) is an arbitrary
    deterministic oracle, [World]; the general theorems quantify over it, the
    scenarios fix one. *)

From Stdlib Require Import ZArith NArith List String Ascii Bool Lia.
From Stdlib Require Import DecimalString.
Import ListNotations.

Local Open Scope string_scope.
Local Open Scope Z_scope.

(** ** Python values used by the class *)

(** The exception classes that occur.  All of them derive from Python's
    [Exception]; so [except Exception] catches every constructor.
    [SubprocessError] stands for whatever [subprocess.run] / [subprocess.Popen]
    raise ([TimeoutExpired], [OSError], [FileNotFoundError], ...). *)
Inductive exn : Type :=
| RemoteExecutionError (msg : string)
| RemoteRebootDetected (msg : string)
| RuntimeError (msg : string)
| AttributeError (msg : string)
| ValueError (msg : string)
| SubprocessError (msg : string).

(** [str(e)], as used by the f-strings [f"...{e}"]. *)
Definition str_exn (e : exn) : string :=
  match e with
  | RemoteExecutionError m | RemoteRebootDetected m | RuntimeError m
  | AttributeError m | ValueError m | SubprocessError m => m
  end.

(** [str(n)] for an [int]. *)
Definition str_int (n : Z) : string := NilZero.string_of_int (Z.to_int n).

(** [str.strip()]: the characters Python's [str.isspace] accepts among the
    code points below 256. *)
Definition isspace (c : ascii) : bool :=
  let n := N_of_ascii c in
  (((9 <=? n) && (n <=? 13)) || ((28 <=? n) && (n <=? 32))
   || (n =? 133) || (n =? 160))%N.

Fixpoint lstrip (s : string) : string :=
  match s with
  | EmptyString => EmptyString
  | String c r => if isspace c then lstrip r else s
  end.

Fixpoint rstrip (s : string) : string :=
  match s with
  | EmptyString => EmptyString
  | String c r =>
      match rstrip r with
      | EmptyString => if isspace c then EmptyString else String c EmptyString
      | r' => String c r'
      end
  end.

Definition strip (s : string) : string := rstrip (lstrip s).

(** Truth value of a [str] and of an [Optional[str]]: [None] and [""] are
    false. *)
Definition truthy_str (s : string) : bool :=
  match s with EmptyString => false | _ => true end.

Definition truthy (o : option string) : bool :=
  match o with None => false | Some s => truthy_str s end.

(** ** The object and the outside world *)

(** The fields set by [__init__]. *)
Record RemoteExecutor : Type := mkRemoteExecutor {
  hostname : string;
  username : string;
  key_file : option string;
  port : Z;
  connected : bool;
  boot_time : option string
}.

(** [RemoteExecutor.__init__]. *)
Definition __init__ (hostname username : string) (key_file : option string)
    (port : Z) : RemoteExecutor :=
  mkRemoteExecutor hostname username key_file port false None.

(** What a finished child process hands back: [returncode] and, with
    [capture_output=True, text=True], the decoded [stdout]. *)
Record CompletedProcess : Type := mkCompleted {
  returncode : Z;
  stdout : string
}.

(** A call of [subprocess.run] or a [with subprocess.Popen(...)] block either
    completes or raises. *)
Inductive run_outcome : Type :=
| Completed (p : CompletedProcess)
| RunRaised (msg : string).

(** The outside world.  [run_oracle n argv] is the outcome of the [n]-th call
    of [subprocess.run] of the process, with the time it took;
    [popen_oracle n argv] that of the [n]-th [Popen] block;
    [oversleep n] is by how much the [n]-th [time.sleep] overshoots.  Time is
    counted in milliseconds and never runs backwards. *)
Record World : Type := mkWorld {
  run_oracle : nat -> list string -> run_outcome * N;
  popen_oracle : nat -> list string -> run_outcome;
  oversleep : nat -> N;
  platform_system : string
}.

(** The state threaded through the methods: the object, the clock, the
    number of [subprocess.run], [Popen] and [time.sleep] calls made so far,
    and how often the recovery loop was entered. *)
Record State : Type := mkState {
  self : RemoteExecutor;
  clock : Z;
  runs : nat;
  popens : nat;
  sleeps : nat;
  recoveries : nat
}.

Definition initial_state (o : RemoteExecutor) : State := mkState o 0 0 0 0 0.

Definition set_connected (b : bool) (s : State) : State :=
  let o := self s in
  mkState (mkRemoteExecutor (hostname o) (username o) (key_file o) (port o)
                            b (boot_time o))
          (clock s) (runs s) (popens s) (sleeps s) (recoveries s).

Definition set_boot_time (v : option string) (s : State) : State :=
  let o := self s in
  mkState (mkRemoteExecutor (hostname o) (username o) (key_file o) (port o)
                            (connected o) v)
          (clock s) (runs s) (popens s) (sleeps s) (recoveries s).

(** ** State and exceptions *)

(** [Diverge] is the model's answer when the loop or recursion budget is
    used up; the totality theorems show it is never produced with the
    budget the program needs. *)
Inductive outcome (A : Type) : Type :=
| Return (a : A)
| Raise (e : exn)
| Diverge.
Arguments Return {A} a.
Arguments Raise {A} e.
Arguments Diverge {A}.

Definition M (A : Type) : Type := State -> outcome A * State.

Definition ret {A} (a : A) : M A := fun s => (Return a, s).

Definition bind {A B} (m : M A) (k : A -> M B) : M B :=
  fun s =>
    match m s with
    | (Return a, s') => k a s'
    | (Raise e, s') => (Raise e, s')
    | (Diverge, s') => (Diverge, s')
    end.

Definition raise {A} (e : exn) : M A := fun s => (Raise e, s).
Definition diverge {A} : M A := fun s => (Diverge, s).

(** [try: body / except ...: handler]; the handler decides by the class of
    the exception and re-raises what no clause catches. *)
Definition try_except {A} (body : M A) (handler : exn -> M A) : M A :=
  fun s =>
    match body s with
    | (Raise e, s') => handler e s'
    | r => r
    end.

Definition get {A} (f : RemoteExecutor -> A) : M A :=
  fun s => (Return (f (self s)), s).

Definition modify (f : State -> State) : M unit :=
  fun s => (Return tt, f s).

Notation "x <- m ;; k" := (bind m (fun x => k))
  (at level 61, m at next level, right associativity).
Notation "m ;;; k" := (bind m (fun _ => k))
  (at level 61, right associativity).

(** ** The program *)

Section Program.

Variable w : World.

(** The state after one more [subprocess.run]: the clock moves on by the
    time the process took. *)
Definition after_run (argv : list string) (s : State) : State :=
  mkState (self s) (clock s + Z.of_N (snd (run_oracle w (runs s) argv)))
          (S (runs s)) (popens s) (sleeps s) (recoveries s).

(** [subprocess.run(argv, ...)]: one question to the world. *)
Definition subprocess_run (argv : list string) : M CompletedProcess :=
  fun s =>
    match fst (run_oracle w (runs s) argv) with
    | Completed p => (Return p, after_run argv s)
    | RunRaised m => (Raise (SubprocessError m), after_run argv s)
    end.

(** The state after one more [Popen] block. *)
Definition after_popen (s : State) : State :=
  mkState (self s) (clock s) (runs s) (S (popens s)) (sleeps s)
          (recoveries s).

(** [with subprocess.Popen(argv, ...) as process:] up to [process.wait()]:
    both streams are drained to the console and the exit code is read. *)
Definition Popen (argv : list string) : M Z :=
  fun s =>
    match popen_oracle w (popens s) argv with
    | Completed p => (Return (returncode p), after_popen s)
    | RunRaised m => (Raise (SubprocessError m), after_popen s)
    end.

Definition time_time : M Z := fun s => (Return (clock s), s).

(** The state after one more [time.sleep]: it lasts at least as long as was
    asked. *)
Definition after_sleep (ms : Z) (s : State) : State :=
  mkState (self s) (clock s + ms + Z.of_N (oversleep w (sleeps s)))
          (runs s) (popens s) (S (sleeps s)) (recoveries s).

(** [time.sleep(secs)] raises [ValueError] on a negative length. *)
Definition time_sleep (ms : Z) : M unit :=
  fun s =>
    if ms <? 0 then (Raise (ValueError "sleep length must be non-negative"), s)
    else (Return tt, after_sleep ms s).

(** [_build_ssh_command] *)
Definition build_ssh_command (o : RemoteExecutor) (command : string)
  : list string :=
  let ssh_cmd := ["ssh"; "-p"; str_int (port o);
                  "-o"; "BatchMode=yes"; "-o"; "ConnectTimeout=5";
                  username o ++ "@" ++ hostname o; command] in
  if truthy (key_file o) then
    match key_file o with
    | Some k => "ssh" :: "-i" :: k :: tl ssh_cmd
    | None => ssh_cmd
    end
  else ssh_cmd.

Definition _build_ssh_command (command : string) : M (list string) :=
  get (fun o => build_ssh_command o command).

(** The [ping_command] of [is_alive]. *)
Definition ping_argv (host : string) : list string :=
  if negb (String.eqb (platform_system w) "Windows")
  then ["ping"; "-c"; "1"; host] else ["ping"; "-n"; "1"; host].

(** [is_alive].  The first [try] either returns [True] or falls through to
    the ping; [Some b] is an early [return b]. *)
Definition is_alive : M bool :=
  check_command <- _build_ssh_command "uptime -s" ;;
  early <- try_except
    (result <- subprocess_run check_command ;;
     if returncode result =? 0 then
       let current_boot_time := strip (stdout result) in
       modify (set_boot_time (Some current_boot_time)) ;;;
       modify (set_connected true) ;;;
       ret (Some true)
     else ret None)
    (fun _ => ret None) ;;
  match early with
  | Some b => ret b
  | None =>
      host <- get hostname ;;
      let ping_command := ping_argv host in
      try_except
        (ping_result <- subprocess_run ping_command ;;
         if returncode ping_result =? 0 then ret false else ret false)
        (fun _ => ret false)
  end.

(** [_get_boot_time] *)
Definition _get_boot_time : M string :=
  try_except
    (cmd <- _build_ssh_command "uptime -s" ;;
     result <- subprocess_run cmd ;;
     ret (strip (stdout result)))
    (fun _ => ret "").

(** [reconnect] *)
Definition reconnect : M bool :=
  try_except
    (alive <- is_alive ;;
     if negb alive then ret false
     else
       current_boot_time <- get boot_time ;;
       new_boot_time <- _get_boot_time ;;
       if truthy current_boot_time
          && negb (match current_boot_time with
                   | Some c => String.eqb c new_boot_time
                   | None => false
                   end)
       then
         modify (set_boot_time (Some new_boot_time)) ;;;
         raise (RemoteRebootDetected
                  ("Remote host rebooted! Old: "
                   ++ match current_boot_time with
                      | Some c => c
                      | None => "None"
                      end
                   ++ ", New: " ++ new_boot_time))
       else
         modify (set_boot_time (Some new_boot_time)) ;;;
         ret true)
    (fun e =>
       match e with
       | RemoteRebootDetected _ => raise e
       | _ => ret false
       end).

(** The names an instance of [RemoteExecutor] answers to: the fields set by
    [__init__] and the methods of the class body.  (What [object] adds are
    double-underscore names only.) *)
Definition instance_fields : list string :=
  ["hostname"; "username"; "key_file"; "port"; "connected"; "boot_time"].

Definition class_methods : list string :=
  ["__init__"; "is_alive"; "reconnect"; "was_rebooted"; "_build_ssh_command";
   "_get_boot_time"; "stream_execute"; "_wait_for_reboot_and_reconnect"].

Definition hasattr (name : string) : bool :=
  existsb (String.eqb name) (instance_fields ++ class_methods).

(** [self.<name>] for a name that is called as a method: the attribute is
    looked up first, and a missing one raises [AttributeError]. *)
Definition getattr {A} (name : string) (found : A) : M A :=
  if hasattr name then ret found
  else raise (AttributeError
                ("'RemoteExecutor' object has no attribute '" ++ name ++ "'")).

(** [was_rebooted].  [execute_impl] is what [self.execute] would run if the
    lookup found it; it returns [(code, out, err)]. *)
Definition was_rebooted
    (execute_impl : string -> Z -> M (Z * string * string)) : M bool :=
  try_except
    (execute <- getattr "execute" execute_impl ;;
     r <- execute "uptime -s" 5 ;;
     let '(code, out, _) := r in
     if code =? 0 then
       let current_boot_time := strip out in
       old <- get boot_time ;;
       let rebooted :=
         match old with
         | Some b => negb (String.eqb b current_boot_time)
         | None => false
         end in
       modify (set_boot_time (Some current_boot_time)) ;;;
       ret rebooted
     else ret false)
    (fun e =>
       match e with
       | RemoteExecutionError _ => ret false
       | _ => raise e
       end).

(** The [while] loop of [_wait_for_reboot_and_reconnect].  [fuel] bounds the
    number of times the loop condition is evaluated. *)
Fixpoint wait_loop (fuel : nat) (start_time : Z)
    (old_boot_time : option string) (timeout interval : Z) : M bool :=
  match fuel with
  | O => diverge
  | S fuel' =>
      now <- time_time ;;
      if now - start_time <? timeout then
        early <- try_except
          (new_boot_time <- _get_boot_time ;;
           if truthy_str new_boot_time then
             modify (set_connected true) ;;;
             modify (set_boot_time (Some new_boot_time)) ;;;
             ret (Some true)
           else ret None)
          (fun _ => ret None) ;;
        match early with
        | Some b => ret b
        | None =>
            time_sleep interval ;;;
            wait_loop fuel' start_time old_boot_time timeout interval
        end
      else
        raise (RemoteExecutionError
                 " Timeout: Remote host did not come back online.")
  end.

(** Entering the recovery loop is counted (its first line announces it on
    the console). *)
Definition entered_recovery (s : State) : State :=
  mkState (self s) (clock s) (runs s) (popens s) (sleeps s)
          (S (recoveries s)).

Definition enter_recovery : M unit := modify entered_recovery.

(** [_wait_for_reboot_and_reconnect] *)
Definition _wait_for_reboot_and_reconnect (fuel : nat) (timeout interval : Z)
  : M bool :=
  enter_recovery ;;;
  start_time <- time_time ;;
  old_boot_time <- get boot_time ;;
  wait_loop fuel start_time old_boot_time timeout interval.

(** The default arguments [timeout=300, interval=5], in milliseconds. *)
Definition default_timeout : Z := 300 * 1000.
Definition default_interval : Z := 5 * 1000.

(** [stream_execute].  The method calls itself with
    [retry_on_reboot=False]; [fuel] bounds that nesting and the loop of the
    recovery it starts.  A bare [raise] outside any handler raises
    [RuntimeError]. *)
Fixpoint stream_execute (fuel : nat) (command : string)
    (retry_on_reboot : bool) : M unit :=
  match fuel with
  | O => diverge
  | S fuel' =>
      is_connected <- get connected ;;
      if negb is_connected then
        try_except
          (reconnect ;;;
           if retry_on_reboot then stream_execute fuel' command false
           else raise (RuntimeError "No active exception to reraise"))
          (fun e =>
             raise (RemoteExecutionError ("Reconnect failed: " ++ str_exn e)))
      else
        ssh_command <- _build_ssh_command command ;;
        try_except
          (rc <- Popen ssh_command ;;
           if rc =? 255 then
             _wait_for_reboot_and_reconnect fuel'
               default_timeout default_interval ;;;
             if retry_on_reboot then stream_execute fuel' command false
             else raise (RemoteExecutionError
                           "SSH failed and retry exhausted.")
           else if negb (rc =? 0) then
             raise (RemoteExecutionError
                      ("Command failed with code " ++ str_int rc))
           else ret tt)
          (fun e =>
             match e with
             | RemoteRebootDetected _ =>
                 if retry_on_reboot then stream_execute fuel' command false
                 else raise e
             | _ =>
                 raise (RemoteExecutionError
                          ("Streaming command failed: " ++ str_exn e))
             end)
  end.

End Program.

(** ** Vocabulary of the statements *)

(** The command line of the boot-time query [uptime -s]. *)
Definition uptime_argv (o : RemoteExecutor) : list string :=
  build_ssh_command o "uptime -s".

(** What the [n]-th [subprocess.run] answers to the boot-time query, and how
    long it takes. *)
Definition probe_outcome (w : World) (o : RemoteExecutor) (n : nat)
  : run_outcome :=
  fst (run_oracle w n (uptime_argv o)).

Definition probe_duration (w : World) (o : RemoteExecutor) (n : nat) : Z :=
  Z.of_N (snd (run_oracle w n (uptime_argv o))).

(** The success test of [is_alive]: the process completed with exit code 0. *)
Definition probe_ok (r : run_outcome) : bool :=
  match r with
  | Completed p => returncode p =? 0
  | RunRaised _ => false
  end.

(** The value [_get_boot_time] makes of an answer. *)
Definition fingerprint_of (r : run_outcome) : string :=
  match r with
  | Completed p => strip (stdout p)
  | RunRaised _ => ""
  end.

(** The loop budget that the recovery loop needs. *)
Definition recovery_fuel (timeout interval : Z) : nat :=
  (Z.to_nat (timeout / interval) + 2)%nat.

(** The budget a top-level [stream_execute] needs: one nested call and the
    recovery loop at its default arguments. *)
Definition enough_fuel : nat :=
  (2 + recovery_fuel default_timeout default_interval)%nat.

Definition is_RemoteExecutionError (e : exn) : bool :=
  match e with RemoteExecutionError _ => true | _ => false end.

Section Vocabulary.

Variable w : World.

(** The state in which a failed [is_alive] ends: two processes were run (ssh,
    then ping) and the object is untouched. *)
Definition after_failed_probe (s : State) : State :=
  after_run w (ping_argv w (hostname (self s)))
            (after_run w (uptime_argv (self s)) s).

(** The state in which a successful [is_alive] ends. *)
Definition after_good_probe (fp : string) (s : State) : State :=
  set_connected true
    (set_boot_time (Some fp) (after_run w (uptime_argv (self s)) s)).

(** What the recovery loop raises when the deadline has passed. *)
Definition timeout_error : exn :=
  RemoteExecutionError " Timeout: Remote host did not come back online.".

(** What the loop guarantees when it is left, started in [s] with the start
    time [start]: from [s] to [s'] only boot-time queries and sleeps happen;
    every query but the last found no fingerprint; each turn begun costs
    [interval]; and the loop is left either by the first query that yields a
    fingerprint, begun before the deadline, or by the time-out, with the
    object untouched. *)
Definition loop_post (start timeout interval : Z) (s : State)
    (r : outcome bool) (s' : State) : Prop :=
  popens s' = popens s /\ recoveries s' = recoveries s
  /\ (runs s <= runs s')%nat
  /\ (forall i, (runs s <= i)%nat -> (S i < runs s')%nat ->
        fingerprint_of (probe_outcome w (self s) i) = "")
  /\ (runs s' = runs s
      \/ (Z.of_nat (runs s' - runs s) - 1) * interval
         < timeout - (clock s - start))
  /\ ((r = Return true
       /\ (runs s < runs s')%nat
       /\ fingerprint_of (probe_outcome w (self s) (pred (runs s'))) <> ""
       /\ self s'
          = self (set_boot_time
                    (Some (fingerprint_of
                             (probe_outcome w (self s) (pred (runs s')))))
                    (set_connected true s))
       /\ clock s' - probe_duration w (self s) (pred (runs s')) - start
          < timeout)
      \/ (r = Raise timeout_error
          /\ self s' = self s
          /\ timeout <= clock s' - start
          /\ (forall i, (runs s <= i < runs s')%nat ->
                fingerprint_of (probe_outcome w (self s) i) = ""))).

(** The [except Exception] clause of the not-connected branch, applied to
    what its [try] body produced. *)
Definition reconnect_failed (r : outcome unit * State) : outcome unit * State :=
  match r with
  | (Raise e, s) =>
      (Raise (RemoteExecutionError ("Reconnect failed: " ++ str_exn e)), s)
  | _ => r
  end.

(** The two [except] clauses of the connected branch. *)
Definition streaming_failed (fuel : nat) (command : string)
    (retry_on_reboot : bool) (r : outcome unit * State)
  : outcome unit * State :=
  match r with
  | (Raise (RemoteRebootDetected m), s) =>
      if retry_on_reboot then stream_execute w fuel command false s
      else (Raise (RemoteRebootDetected m), s)
  | (Raise e, s) =>
      (Raise (RemoteExecutionError
                ("Streaming command failed: " ++ str_exn e)), s)
  | _ => r
  end.

(** The [except Exception] clause of the connected branch alone. *)
Definition streaming_wrapped (r : outcome unit * State)
  : outcome unit * State :=
  match r with
  | (Raise e, s) =>
      (Raise (RemoteExecutionError
                ("Streaming command failed: " ++ str_exn e)), s)
  | _ => r
  end.

End Vocabulary.

(** ** Concrete worlds and runs *)

(** A world that answers from two scripts, then with a default; every
    [subprocess.run] takes 40 ms. *)
Definition scripted (run_script : list run_outcome) (run_default : run_outcome)
    (popen_script : list run_outcome) (popen_default : run_outcome) : World :=
  mkWorld (fun n _ => (nth n run_script run_default, 40%N))
          (fun n _ => nth n popen_script popen_default)
          (fun _ => 0%N)
          "Linux".

Definition exits (rc : Z) (out : string) : run_outcome :=
  Completed (mkCompleted rc out).

Definition newline : string := String (ascii_of_nat 10) EmptyString.

Definition target : RemoteExecutor :=
  __init__ "hostname" "username" (Some "key") 22.

(** The object after an earlier successful probe that read ["B1"]. *)
Definition connected_target : State :=
  set_connected true (set_boot_time (Some "B1") (initial_state target)).

(** [n] calls of [reconnect] in a row. *)
Fixpoint refreshes (w : World) (n : nat) (s : State)
  : list (outcome bool) * State :=
  match n with
  | O => ([], s)
  | S k =>
      let (r, s1) := reconnect w s in
      let (rs, s2) := refreshes w k s1 in
      (r :: rs, s2)
  end.

(** The host is up with boot time B1 for three refreshes (the first reads an
    empty fingerprint), reboots, and is up with boot time B2 for the fourth.
    Each refresh asks twice. *)
Definition world_reboot_between_refreshes : World :=
  scripted [exits 0 ""; exits 0 "";
            exits 0 ("B1" ++ newline); exits 0 ("B1" ++ newline);
            exits 0 ("B1" ++ newline); exits 0 ("B1" ++ newline);
            exits 0 ("B2" ++ newline); exits 0 ("B2" ++ newline)]
           (exits 0 ("B2" ++ newline)) [] (exits 0 "").

(** The host reboots between the two queries of one refresh; the command
    itself would succeed. *)
Definition world_reboot_inside_refresh : World :=
  scripted [exits 0 ("B1" ++ newline); exits 0 ("B2" ++ newline)]
           (exits 0 ("B2" ++ newline)) [] (exits 0 "").

(** The second query of the refresh times out. *)
Definition world_second_query_fails : World :=
  scripted [exits 0 ("B1" ++ newline); RunRaised "timed out after 5 seconds"]
           (exits 0 ("B1" ++ newline)) [] (exits 0 "").

(** Nothing answers: ssh and ping both fail. *)
Definition world_down : World :=
  scripted [] (exits 255 "") [] (exits 255 "").

(** The session is refused for every command, the boot-time query
    answers. *)
Definition world_refusing : World :=
  scripted [] (exits 0 ("B1" ++ newline)) [] (exits 255 "").

(** The command exits with code 1. *)
Definition world_false : World :=
  scripted [] (exits 0 ("B1" ++ newline)) [] (exits 1 "").


(** ** The entry point *)

(** The [for] loop of the [__main__] block, [n] turns of it: the command
    [uptime] is run, [RemoteRebootDetected] skips the pause ([continue]),
    [RemoteExecutionError] is printed, anything else escapes; then
    [time.sleep(1)]. *)
Fixpoint polling_loop (w : World) (fuel : nat) (n : nat) : M unit :=
  match n with
  | O => ret tt
  | S k =>
      skip <- try_except
        (stream_execute w fuel "uptime" true ;;; ret false)
        (fun e =>
           match e with
           | RemoteRebootDetected _ => ret true
           | RemoteExecutionError _ => ret false
           | _ => raise e
           end) ;;
      if (skip : bool) then polling_loop w fuel k
      else time_sleep w 1000 ;;; polling_loop w fuel k
  end.

(** The [__main__] block. *)
Definition main (w : World) (fuel : nat) : outcome unit * State :=
  polling_loop w fuel 300
    (initial_state (__init__ "hostname" "username" (Some "key") 22)).

(** The fields that name the target. *)
Definition identity (o : RemoteExecutor)
  : string * string * option string * Z :=
  (hostname o, username o, key_file o, port o).

(** The host is up and every command succeeds. *)
Definition world_up : World :=
  scripted [] (exits 0 ("B1" ++ newline)) [] (exits 0 "").

(** The first start of the command is refused, the host answers the first
    boot-time query after that, and the second start succeeds. *)
Definition world_refused_once : World :=
  scripted [] (exits 0 ("B2" ++ newline)) [exits 255 ""] (exits 0 "").

(** The [ssh] program cannot be started. *)
Definition world_no_ssh : World :=
  scripted [] (RunRaised "[Errno 2] No such file or directory: 'ssh'")
           [] (RunRaised "[Errno 2] No such file or directory: 'ssh'").

(** [s'] is a later state of the same target than [s]: the identity fields
    are the same, and the clock and the counters have not gone back. *)
Definition later (s s' : State) : Prop :=
  identity (self s') = identity (self s)
  /\ clock s <= clock s'
  /\ (runs s <= runs s')%nat
  /\ (popens s <= popens s')%nat
  /\ (sleeps s <= sleeps s')%nat
  /\ (recoveries s <= recoveries s')%nat.

(** * The simulated executor (vmconnectormock.py)

    [RemoteExecutorMock] starts no process: it decides by two counters,
    [run_count] and [simulated_reboot_after], and draws its boot times at
    random.  The random draws, the clock and the pauses are its outside
    world. *)

Declare Scope mock_scope.

Module Mock.

(** The fields set by [__init__]. *)
Record RemoteExecutorMock : Type := mkMock {
  hostname : string;
  username : string;
  key_file : option string;
  port : Z;
  connected : bool;
  boot_time : string;
  simulated_reboot_after : Z;
  run_count : Z
}.

(** [random_draw n] is the [n]-th raw random number; [oversleep n] is by how
    much the [n]-th [time.sleep] overshoots. *)
Record World : Type := mkWorld {
  random_draw : nat -> nat;
  oversleep : nat -> N
}.

Record State : Type := mkState {
  self : RemoteExecutorMock;
  draws : nat;
  clock : Z;
  sleeps : nat
}.

Definition M (A : Type) : Type := State -> outcome A * State.

Definition ret {A} (a : A) : M A := fun s => (Return a, s).

Definition bind {A B} (m : M A) (k : A -> M B) : M B :=
  fun s =>
    match m s with
    | (Return a, s') => k a s'
    | (Raise e, s') => (Raise e, s')
    | (Diverge, s') => (Diverge, s')
    end.

Definition raise {A} (e : exn) : M A := fun s => (Raise e, s).
Definition diverge {A} : M A := fun s => (Diverge, s).

Definition try_except {A} (body : M A) (handler : exn -> M A) : M A :=
  fun s =>
    match body s with
    | (Raise e, s') => handler e s'
    | r => r
    end.

Definition get {A} (f : RemoteExecutorMock -> A) : M A :=
  fun s => (Return (f (self s)), s).

Definition modify (f : State -> State) : M unit :=
  fun s => (Return tt, f s).

Notation "x <- m ;; k" := (bind m (fun x => k))
  (at level 61, m at next level, right associativity) : mock_scope.
Notation "m ;;; k" := (bind m (fun _ => k))
  (at level 61, right associativity) : mock_scope.

Local Open Scope mock_scope.

Definition set_connected (b : bool) (s : State) : State :=
  let o := self s in
  mkState (mkMock (hostname o) (username o) (key_file o) (port o) b
                  (boot_time o) (simulated_reboot_after o) (run_count o))
          (draws s) (clock s) (sleeps s).

Definition set_boot_time (v : string) (s : State) : State :=
  let o := self s in
  mkState (mkMock (hostname o) (username o) (key_file o) (port o)
                  (connected o) v (simulated_reboot_after o) (run_count o))
          (draws s) (clock s) (sleeps s).

Definition set_simulated_reboot_after (v : Z) (s : State) : State :=
  let o := self s in
  mkState (mkMock (hostname o) (username o) (key_file o) (port o)
                  (connected o) (boot_time o) v (run_count o))
          (draws s) (clock s) (sleeps s).

Definition set_run_count (v : Z) (s : State) : State :=
  let o := self s in
  mkState (mkMock (hostname o) (username o) (key_file o) (port o)
                  (connected o) (boot_time o) (simulated_reboot_after o) v)
          (draws s) (clock s) (sleeps s).

Section Program.

Variable w : World.

(** [random.randint(lo, hi)]: a number between [lo] and [hi], both
    included. *)
Definition randint (lo hi : Z) : M Z :=
  fun s =>
    (Return (lo + Z.of_nat (random_draw w (draws s)) mod (hi - lo + 1)),
     mkState (self s) (S (draws s)) (clock s) (sleeps s)).

(** [_simulate_boot_time] *)
Definition _simulate_boot_time : M string :=
  minute <- randint 10 59 ;;
  ret ("2025-06-12 10:" ++ str_int minute ++ ":00").

(** [__init__]: the first draw gives the boot time. *)
Definition __init__ (hostname username : string) (key_file : option string)
    (port : Z) : State :=
  let blank := mkState (mkMock hostname username key_file port false ""
                               5 0) 0 0 0 in
  match _simulate_boot_time blank with
  | (Return b, s) =>
      set_run_count 0 (set_simulated_reboot_after 5 (set_boot_time b s))
  | (_, s) => s
  end.

(** [_ping] *)
Definition _ping : M bool := ret true.

(** [is_alive] *)
Definition is_alive : M bool :=
  count <- get run_count ;;
  after <- get simulated_reboot_after ;;
  if count <? after then
    modify (set_connected true) ;;; ret true
  else
    pong <- _ping ;;
    if (pong : bool) then modify (set_connected false) ;;; ret false
    else ret false.

(** [_get_boot_time] *)
Definition _get_boot_time : M string :=
  count <- get run_count ;;
  after <- get simulated_reboot_after ;;
  if count =? after then _simulate_boot_time else get boot_time.

(** [reconnect] *)
Definition reconnect : M bool :=
  alive <- is_alive ;;
  if negb alive then ret false
  else
    new_boot_time <- _get_boot_time ;;
    stored <- get boot_time ;;
    if truthy_str stored && negb (String.eqb stored new_boot_time) then
      let old := stored in
      modify (set_boot_time new_boot_time) ;;;
      raise (RemoteRebootDetected
               ("Remote reboot detected! Old: " ++ old ++ ", New: "
                ++ new_boot_time))
    else
      modify (set_boot_time new_boot_time) ;;; ret true.

(** [stream_execute]; [fuel] bounds the nesting of its calls of itself. *)
Fixpoint stream_execute (fuel : nat) (command : string)
    (retry_on_reboot : bool) : M unit :=
  match fuel with
  | O => diverge
  | S fuel' =>
      is_connected <- get connected ;;
      if negb is_connected then
        try_except
          (reconnect ;;;
           if retry_on_reboot then stream_execute fuel' command false
           else raise (RemoteExecutionError "Reconnect failed."))
          (fun e =>
             match e with
             | RemoteRebootDetected _ => ret tt
             | _ => raise (RemoteExecutionError
                             ("Reconnect failed: " ++ str_exn e))
             end)
      else
        count <- get run_count ;;
        after <- get simulated_reboot_after ;;
        if count =? after then
          raise (RemoteExecutionError
                   "Simulated command failure after reboot.")
        else ret tt
  end.

Definition time_time : M Z := fun s => (Return (clock s), s).

Definition after_sleep (ms : Z) (s : State) : State :=
  mkState (self s) (draws s)
          (clock s + ms + Z.of_N (oversleep w (sleeps s))) (S (sleeps s)).

Definition time_sleep (ms : Z) : M unit :=
  fun s =>
    if ms <? 0 then (Raise (ValueError "sleep length must be non-negative"), s)
    else (Return tt, after_sleep ms s).

Definition timeout_error : exn :=
  RemoteExecutionError " Timeout: Host did not come back online.".

(** The [while] loop of [_wait_for_reboot_and_reconnect]. *)
Fixpoint wait_loop (fuel : nat) (start timeout interval : Z) : M bool :=
  match fuel with
  | O => diverge
  | S fuel' =>
      now <- time_time ;;
      if now - start <? timeout then
        new_boot_time <- _get_boot_time ;;
        stored <- get boot_time ;;
        if negb (String.eqb new_boot_time stored) then ret true
        else time_sleep interval ;;; wait_loop fuel' start timeout interval
      else raise timeout_error
  end.

(** [_wait_for_reboot_and_reconnect] *)
Definition _wait_for_reboot_and_reconnect (fuel : nat) (timeout interval : Z)
  : M bool :=
  start <- time_time ;;
  wait_loop fuel start timeout interval.

(** The [for] loop of the [__main__] block and of the tests, [n] turns from
    [run_count = i] on.  Each turn sets [run_count], runs [uptime] and notes
    how the call ended; the two errors of the module are caught, anything
    else escapes; [pause] is the [time.sleep] of the turn ([None] in the
    tests). *)
Fixpoint turns (fuel : nat) (pause : option Z) (i : Z) (n : nat)
  : M (list (outcome unit)) :=
  match n with
  | O => ret []
  | S k =>
      modify (set_run_count i) ;;;
      ended <- try_except
        (stream_execute fuel "uptime" true ;;; ret (Return tt))
        (fun e =>
           match e with
           | RemoteRebootDetected _ | RemoteExecutionError _ => ret (Raise e)
           | _ => raise e
           end) ;;
      match pause with Some ms => time_sleep ms | None => ret tt end ;;;
      rest <- turns fuel pause (i + 1) k ;;
      ret (ended :: rest)
  end.

End Program.

(** The budget [stream_execute] needs. *)
Definition enough_fuel : nat := 2.

(** How the turn with [run_count = i] ends once the object is connected. *)
Definition turn_result (after i : Z) : outcome unit :=
  if i =? after
  then Raise (RemoteExecutionError "Simulated command failure after reboot.")
  else Return tt.

(** The results of [n] turns from [i] on. *)
Fixpoint turn_results (after i : Z) (n : nat) : list (outcome unit) :=
  match n with
  | O => []
  | S k => turn_result after i :: turn_results after (i + 1) k
  end.

(** A world whose draws count up. *)
Definition counting : World := mkWorld (fun n => n) (fun _ => 0%N).

(** The object of the [__main__] block. *)
Definition demo : State := __init__ counting "IP address" "offline_user" None 22.

End Mock.

(** ** Equations of the probe and of the tracker *)

Section Facts.

Variable w : World.

(** The command line depends on the identity of the target only. *)
Lemma build_ssh_command_set_boot_time v s command :
  build_ssh_command (self (set_boot_time v s)) command
  = build_ssh_command (self s) command.
Proof. reflexivity. Qed.

Lemma build_ssh_command_set_connected b s command :
  build_ssh_command (self (set_connected b s)) command
  = build_ssh_command (self s) command.
Proof. reflexivity. Qed.

Lemma is_alive_eq s :
  is_alive w s =
  if probe_ok (probe_outcome w (self s) (runs s))
  then (Return true,
        after_good_probe w
          (fingerprint_of (probe_outcome w (self s) (runs s))) s)
  else (Return false, after_failed_probe w s).
Proof.
  unfold is_alive, _build_ssh_command, get, bind, try_except, subprocess_run,
    probe_outcome, uptime_argv, after_failed_probe, after_good_probe,
    uptime_argv.
  destruct (fst (run_oracle w (runs s) (build_ssh_command (self s) "uptime -s")))
    as [p|m] eqn:E; cbn [probe_ok fingerprint_of].
  - destruct (returncode p =? 0) eqn:R; cbn.
    + reflexivity.
    + destruct (fst (run_oracle w (S (runs s)) _)) as [q|m']; cbn;
        [destruct (returncode q =? 0)|]; reflexivity.
  - cbn. destruct (fst (run_oracle w (S (runs s)) _)) as [q|m']; cbn;
      [destruct (returncode q =? 0)|]; reflexivity.
Qed.

Lemma _get_boot_time_eq s :
  _get_boot_time w s =
  (Return (fingerprint_of (probe_outcome w (self s) (runs s))),
   after_run w (uptime_argv (self s)) s).
Proof.
  unfold _get_boot_time, _build_ssh_command, get, bind, try_except,
    subprocess_run, probe_outcome, uptime_argv.
  destruct (fst (run_oracle w (runs s) (build_ssh_command (self s) "uptime -s")));
    reflexivity.
Qed.

(** A refresh whose probe fails returns [False] and leaves the object as it
    was. *)
Lemma reconnect_unreachable s :
  probe_ok (probe_outcome w (self s) (runs s)) = false ->
  reconnect w s = (Return false, after_failed_probe w s).
Proof.
  intros H. unfold reconnect, try_except, bind.
  rewrite is_alive_eq, H. reflexivity.
Qed.

(** A refresh whose probe succeeds: the stored value compared is the one the
    probe has just written.  [fp1] is the probe's fingerprint, [fp2] that of
    the second query. *)
Lemma reconnect_reachable s :
  probe_ok (probe_outcome w (self s) (runs s)) = true ->
  let fp1 := fingerprint_of (probe_outcome w (self s) (runs s)) in
  let fp2 := fingerprint_of (probe_outcome w (self s) (S (runs s))) in
  let s2 := set_boot_time (Some fp2)
              (after_run w (uptime_argv (self s)) (after_good_probe w fp1 s)) in
  reconnect w s =
  if truthy_str fp1 && negb (String.eqb fp1 fp2)
  then (Raise (RemoteRebootDetected
                 ("Remote host rebooted! Old: " ++ fp1 ++ ", New: " ++ fp2)),
        s2)
  else (Return true, s2).
Proof.
  intros H fp1 fp2 s2. subst fp1 fp2 s2.
  unfold reconnect, try_except, bind.
  rewrite is_alive_eq, H. cbn [negb].
  unfold get. rewrite _get_boot_time_eq.
  set (fp1 := fingerprint_of (probe_outcome w (self s) (runs s))).
  change (boot_time (self (after_good_probe w fp1 s))) with (Some fp1).
  change (probe_outcome w (self (after_good_probe w fp1 s))
                        (runs (after_good_probe w fp1 s)))
    with (probe_outcome w (self s) (S (runs s))).
  set (fp2 := fingerprint_of (probe_outcome w (self s) (S (runs s)))).
  cbn [truthy].
  destruct (truthy_str fp1 && negb (String.eqb fp1 fp2)); reflexivity.
Qed.

(** *** The recovery loop *)

(** One turn of the loop. *)
Lemma wait_loop_step fuel start old timeout interval s :
  wait_loop w (S fuel) start old timeout interval s =
  if clock s - start <? timeout then
    let fp := fingerprint_of (probe_outcome w (self s) (runs s)) in
    let s1 := after_run w (uptime_argv (self s)) s in
    if truthy_str fp
    then (Return true, set_boot_time (Some fp) (set_connected true s1))
    else if interval <? 0
         then (Raise (ValueError "sleep length must be non-negative"), s1)
         else wait_loop w fuel start old timeout interval
                (after_sleep w interval s1)
  else (Raise timeout_error, s).
Proof.
  cbn [wait_loop]. unfold bind at 1. unfold time_time.
  destruct (clock s - start <? timeout); [|reflexivity].
  unfold bind at 1. unfold try_except, bind at 1.
  rewrite _get_boot_time_eq.
  destruct (truthy_str (fingerprint_of (probe_outcome w (self s) (runs s))));
    cbn.
  - reflexivity.
  - unfold time_sleep. destruct (interval <? 0); reflexivity.
Qed.

Lemma truthy_str_false fp : truthy_str fp = false -> fp = "".
Proof. destruct fp; [reflexivity|discriminate]. Qed.

Lemma truthy_str_true fp : truthy_str fp = true -> fp <> "".
Proof. destruct fp; [discriminate|]. intros _ H. discriminate H. Qed.

Lemma wait_loop_post fuel :
  forall start old timeout interval s,
    0 < interval ->
    (1 <= fuel)%nat ->
    timeout - (clock s - start) <= interval * (Z.of_nat fuel - 1) ->
    loop_post w start timeout interval s
      (fst (wait_loop w fuel start old timeout interval s))
      (snd (wait_loop w fuel start old timeout interval s)).
Proof.
  induction fuel as [|fuel IH]; intros start old timeout interval s Hi Hf Hb.
  - lia.
  - rewrite wait_loop_step.
    destruct (clock s - start <? timeout) eqn:G.
    + apply Z.ltb_lt in G. cbv zeta.
      destruct (truthy_str (fingerprint_of (probe_outcome w (self s) (runs s))))
        eqn:T.
      * (* this query ends the loop *)
        apply truthy_str_true in T. unfold loop_post.
        cbn [fst snd set_boot_time set_connected after_run self clock runs
             popens recoveries pred].
        split; [reflexivity|]. split; [reflexivity|]. split; [lia|].
        split; [intros i H1 H2; lia|].
        split.
        { right. replace (S (runs s) - runs s)%nat with 1%nat by lia.
          change (Z.of_nat 1 - 1) with 0. lia. }
        left. split; [reflexivity|]. split; [lia|]. split; [exact T|].
        split; [reflexivity|].
        unfold probe_duration, uptime_argv. lia.
      * apply truthy_str_false in T.
        assert (Hn : (interval <? 0) = false) by (apply Z.ltb_ge; lia).
        rewrite Hn.
        set (s2 := after_sleep w interval (after_run w (uptime_argv (self s)) s)).
        assert (Hf' : (1 <= fuel)%nat) by nia.
        assert (Hc : clock s + interval <= clock s2) by (cbn; lia).
        assert (Hb' : timeout - (clock s2 - start)
                      <= interval * (Z.of_nat fuel - 1)) by nia.
        specialize (IH start old timeout interval s2 Hi Hf' Hb').
        set (res := wait_loop w fuel start old timeout interval s2) in *.
        destruct IH as (P1 & P2 & P3 & P4 & P5 & P6).
        change (self s2) with (self s) in *.
        change (runs s2) with (S (runs s)) in *.
        change (popens s2) with (popens s) in *.
        change (recoveries s2) with (recoveries s) in *.
        unfold loop_post.
        split; [exact P1|]. split; [exact P2|]. split; [lia|].
        split.
        { intros i H1 H2.
          destruct (Nat.eq_dec i (runs s)) as [->|Hne]; [exact T|].
          apply P4; lia. }
        split.
        { right. destruct P5 as [P5|P5].
          - rewrite P5. replace (S (runs s) - runs s)%nat with 1%nat by lia.
            change (Z.of_nat 1 - 1) with 0. lia.
          - replace (Z.of_nat (runs (snd res) - runs s))
              with (Z.of_nat (runs (snd res) - S (runs s)) + 1) by lia.
            nia. }
        destruct P6 as [(Q1 & Q2 & Q3 & Q4 & Q5)|(Q1 & Q2 & Q3 & Q4)].
        -- left. split; [exact Q1|]. split; [lia|]. split; [exact Q3|].
           split; [exact Q4|]. exact Q5.
        -- right. split; [exact Q1|]. split; [exact Q2|]. split; [lia|].
           intros i Hi'.
           destruct (Nat.eq_dec i (runs s)) as [->|Hne]; [exact T|].
           apply Q4; lia.
    + apply Z.ltb_ge in G. unfold loop_post. cbn [fst snd].
      split; [reflexivity|]. split; [reflexivity|]. split; [lia|].
      split; [intros i H1 H2; lia|]. split; [left; reflexivity|].
      right. split; [reflexivity|]. split; [reflexivity|]. split; [lia|].
      intros i Hi'. lia.
Qed.

Lemma _wait_for_reboot_and_reconnect_eq fuel timeout interval s :
  _wait_for_reboot_and_reconnect w fuel timeout interval s
  = wait_loop w fuel (clock s) (boot_time (self s)) timeout interval
      (entered_recovery s).
Proof. reflexivity. Qed.

Lemma recovery_fuel_enough timeout interval fuel :
  0 < interval -> (recovery_fuel timeout interval <= fuel)%nat ->
  (1 <= fuel)%nat /\ timeout <= interval * (Z.of_nat fuel - 1).
Proof.
  unfold recovery_fuel. intros Hi Hf. split; [lia|].
  assert (H := Z.mod_pos_bound timeout interval Hi).
  assert (D := Z.div_mod timeout interval ltac:(lia)).
  assert (timeout / interval + 1 <= Z.of_nat fuel - 1) by lia.
  nia.
Qed.

(** The loop starts no command, whatever its budget. *)
Lemma wait_loop_frame fuel :
  forall start old timeout interval s,
    let s' := snd (wait_loop w fuel start old timeout interval s) in
    popens s' = popens s /\ recoveries s' = recoveries s
    /\ (connected (self s) = true -> connected (self s') = true).
Proof.
  induction fuel as [|fuel IH]; intros start old timeout interval s.
  - cbn. auto.
  - cbv zeta. rewrite wait_loop_step.
    destruct (clock s - start <? timeout); [|cbn; auto].
    cbv zeta. destruct (truthy_str _); [cbn; auto|].
    destruct (interval <? 0); [cbn; auto|].
    apply (IH start old timeout interval
              (after_sleep w interval (after_run w (uptime_argv (self s)) s))).
Qed.

(** Whatever the loop raises, it is not the reboot signal. *)
Lemma wait_loop_raises fuel :
  forall start old timeout interval s e,
    fst (wait_loop w fuel start old timeout interval s) = Raise e ->
    forall m, e <> RemoteRebootDetected m.
Proof.
  induction fuel as [|fuel IH]; intros start old timeout interval s e.
  - cbn. discriminate.
  - rewrite wait_loop_step.
    destruct (clock s - start <? timeout);
      [|cbn; intros [= <-] m; discriminate].
    cbv zeta. destruct (truthy_str _); [cbn; discriminate|].
    destruct (interval <? 0); [cbn; intros [= <-] m; discriminate|].
    apply IH.
Qed.

(** *** The command executor *)

Lemma stream_execute_not_connected fuel command retry s :
  connected (self s) = false ->
  stream_execute w (S fuel) command retry s =
  reconnect_failed
    match reconnect w s with
    | (Return _, s1) =>
        if retry then stream_execute w fuel command false s1
        else (Raise (RuntimeError "No active exception to reraise"), s1)
    | (Raise e, s1) => (Raise e, s1)
    | (Diverge, s1) => (Diverge, s1)
    end.
Proof.
  intros H. cbn [stream_execute]. unfold bind at 1. unfold get. rewrite H.
  cbn [negb]. unfold try_except, bind, reconnect_failed.
  destruct (reconnect w s) as [[b|e|] s1]; [|reflexivity|reflexivity].
  destruct retry; [|reflexivity].
  destruct (stream_execute w fuel command false s1) as [[[]|e|] s2];
    reflexivity.
Qed.

Lemma stream_execute_connected fuel command retry s :
  connected (self s) = true ->
  stream_execute w (S fuel) command retry s =
  match popen_oracle w (popens s) (build_ssh_command (self s) command) with
  | RunRaised m =>
      (Raise (RemoteExecutionError ("Streaming command failed: " ++ m)),
       after_popen s)
  | Completed p =>
      if returncode p =? 255 then
        streaming_failed w fuel command retry
          match _wait_for_reboot_and_reconnect w fuel default_timeout
                  default_interval (after_popen s) with
          | (Return _, s2) =>
              if retry then stream_execute w fuel command false s2
              else (Raise (RemoteExecutionError
                             "SSH failed and retry exhausted."), s2)
          | (Raise e, s2) => (Raise e, s2)
          | (Diverge, s2) => (Diverge, s2)
          end
      else if negb (returncode p =? 0) then
        (Raise (RemoteExecutionError
                  ("Streaming command failed: Command failed with code "
                   ++ str_int (returncode p))), after_popen s)
      else (Return tt, after_popen s)
  end.
Proof.
  intros H. cbn [stream_execute]. unfold bind at 1. unfold get. rewrite H.
  cbn [negb]. unfold bind at 1. unfold _build_ssh_command, get.
  unfold try_except, bind at 1. unfold Popen.
  destruct (popen_oracle w (popens s) (build_ssh_command (self s) command))
    as [p|m]; [|reflexivity].
  destruct (returncode p =? 255) eqn:R255.
  - unfold bind at 1.
    destruct (_wait_for_reboot_and_reconnect w fuel default_timeout
                default_interval (after_popen s)) as [[b|e|] s2].
    + destruct retry.
      * unfold streaming_failed.
        destruct (stream_execute w fuel command false s2) as [[[]|e|] s3];
          try reflexivity.
        destruct e; reflexivity.
      * reflexivity.
    + unfold streaming_failed. destruct e; try reflexivity.
      destruct retry; reflexivity.
    + reflexivity.
  - destruct (negb (returncode p =? 0)); reflexivity.
Qed.

Lemma streaming_failed_no_reboot fuel command retry r :
  (forall m, fst r <> Raise (RemoteRebootDetected m)) ->
  streaming_failed w fuel command retry r = streaming_wrapped r.
Proof.
  destruct r as [[[]|e|] s]; cbn; intros H; try reflexivity.
  destruct e; try reflexivity. exfalso. apply (H msg). reflexivity.
Qed.

Lemma reconnect_frame s :
  popens (snd (reconnect w s)) = popens s
  /\ recoveries (snd (reconnect w s)) = recoveries s
  /\ fst (reconnect w s) <> Diverge
  /\ (connected (self s) = true ->
      connected (self (snd (reconnect w s))) = true).
Proof.
  destruct (probe_ok (probe_outcome w (self s) (runs s))) eqn:P.
  - rewrite (reconnect_reachable s P). cbv zeta.
    destruct (truthy_str _ && negb _); cbn; repeat split; auto; discriminate.
  - rewrite (reconnect_unreachable s P). cbn. repeat split; auto; discriminate.
Qed.

(** Only [RemoteExecutionError] leaves [stream_execute]. *)
Lemma stream_execute_raises fuel :
  forall command retry s e,
    fst (stream_execute w fuel command retry s) = Raise e ->
    is_RemoteExecutionError e = true.
Proof.
  induction fuel as [|fuel IH]; intros command retry s e.
  - cbn. discriminate.
  - destruct (connected (self s)) eqn:C.
    + rewrite (stream_execute_connected _ _ _ _ C).
      destruct (popen_oracle w _ _) as [p|m]; [|cbn; intros [= <-]; reflexivity].
      destruct (returncode p =? 255).
      * rewrite streaming_failed_no_reboot.
        -- match goal with
           | |- context [streaming_wrapped ?x] =>
               destruct x as [[[]|e'|] s']
           end; cbn; try discriminate.
           intros [= <-]. reflexivity.
        -- intros m. rewrite _wait_for_reboot_and_reconnect_eq.
           destruct (wait_loop w fuel _ _ _ _ _) as [[b|e'|] s2] eqn:W.
           ++ destruct retry; [|cbn; discriminate].
              intros H. apply IH in H. discriminate.
           ++ cbn. intros [= ->].
              apply (wait_loop_raises fuel _ _ _ _ _ _
                       (f_equal fst W) m). reflexivity.
           ++ cbn. discriminate.
      * destruct (negb _); cbn; [intros [= <-]; reflexivity|discriminate].
    + rewrite (stream_execute_not_connected _ _ _ _ C).
      match goal with
      | |- context [reconnect_failed ?x] => destruct x as [[[]|e'|] s']
      end; cbn; try discriminate.
      intros [= <-]. reflexivity.
Qed.

(** The connected branch, with the clause for the reboot signal gone: nothing
    inside its [try] raises that signal. *)
Lemma stream_execute_connected_eq fuel command retry s :
  connected (self s) = true ->
  stream_execute w (S fuel) command retry s =
  match popen_oracle w (popens s) (build_ssh_command (self s) command) with
  | RunRaised m =>
      (Raise (RemoteExecutionError ("Streaming command failed: " ++ m)),
       after_popen s)
  | Completed p =>
      if returncode p =? 255 then
        streaming_wrapped
          match _wait_for_reboot_and_reconnect w fuel default_timeout
                  default_interval (after_popen s) with
          | (Return _, s2) =>
              if retry then stream_execute w fuel command false s2
              else (Raise (RemoteExecutionError
                             "SSH failed and retry exhausted."), s2)
          | (Raise e, s2) => (Raise e, s2)
          | (Diverge, s2) => (Diverge, s2)
          end
      else if negb (returncode p =? 0) then
        (Raise (RemoteExecutionError
                  ("Streaming command failed: Command failed with code "
                   ++ str_int (returncode p))), after_popen s)
      else (Return tt, after_popen s)
  end.
Proof.
  intros C. rewrite (stream_execute_connected _ _ _ _ C).
  destruct (popen_oracle w _ _) as [p|m]; [|reflexivity].
  destruct (returncode p =? 255); [|reflexivity].
  apply streaming_failed_no_reboot.
  intros m. rewrite _wait_for_reboot_and_reconnect_eq.
  destruct (wait_loop w fuel _ _ _ _ _) as [[b|e'|] s2] eqn:W.
  - destruct retry; [|cbn; discriminate].
    intros H. apply stream_execute_raises in H. discriminate.
  - cbn. intros [= ->].
    apply (wait_loop_raises fuel _ _ _ _ _ _ (f_equal fst W) m). reflexivity.
  - cbn. discriminate.
Qed.

Lemma snd_streaming_wrapped r : snd (streaming_wrapped r) = snd r.
Proof. destruct r as [[[]|e|] s]; reflexivity. Qed.

Lemma snd_reconnect_failed r : snd (reconnect_failed r) = snd r.
Proof. destruct r as [[[]|e|] s]; reflexivity. Qed.

Lemma recovery_frame fuel timeout interval s :
  let s' := snd (_wait_for_reboot_and_reconnect w fuel timeout interval s) in
  popens s' = popens s /\ recoveries s' = S (recoveries s)
  /\ (connected (self s) = true -> connected (self s') = true).
Proof.
  cbv zeta. rewrite _wait_for_reboot_and_reconnect_eq.
  apply (wait_loop_frame fuel (clock s) (boot_time (self s)) timeout interval
           (entered_recovery s)).
Qed.

(** With [retry_on_reboot=False] the command is started at most once; a
    top-level call starts it at most twice. *)
Lemma stream_execute_launches_last fuel command s :
  (popens (snd (stream_execute w fuel command false s)) <= popens s + 1)%nat.
Proof.
  destruct fuel as [|fuel]; [cbn; lia|].
  destruct (connected (self s)) eqn:C.
  - rewrite (stream_execute_connected_eq _ _ _ _ C).
    destruct (popen_oracle w _ _) as [p|m]; [|cbn; lia].
    destruct (returncode p =? 255).
    + rewrite snd_streaming_wrapped.
      assert (F := recovery_frame fuel default_timeout default_interval
                     (after_popen s)).
      cbv zeta in F. destruct F as (F & _).
      destruct (_wait_for_reboot_and_reconnect w fuel _ _ _) as [[b|e|] s2];
        cbn in *; lia.
    + destruct (negb _); cbn; lia.
  - rewrite (stream_execute_not_connected _ _ _ _ C).
    rewrite snd_reconnect_failed.
    destruct (reconnect_frame s) as (F & _).
    destruct (reconnect w s) as [[b|e|] s1]; cbn in *; lia.
Qed.

Lemma stream_execute_launches fuel command retry s :
  (popens (snd (stream_execute w fuel command retry s)) <= popens s + 2)%nat.
Proof.
  destruct retry;
    [|assert (H := stream_execute_launches_last fuel command s); lia].
  destruct fuel as [|fuel]; [cbn; lia|].
  destruct (connected (self s)) eqn:C.
  - rewrite (stream_execute_connected_eq _ _ _ _ C).
    destruct (popen_oracle w _ _) as [p|m]; [|cbn; lia].
    destruct (returncode p =? 255).
    + rewrite snd_streaming_wrapped.
      assert (F := recovery_frame fuel default_timeout default_interval
                     (after_popen s)).
      cbv zeta in F. destruct F as (F & _).
      destruct (_wait_for_reboot_and_reconnect w fuel _ _ _) as [[b|e|] s2];
        cbn in *; try lia.
      assert (H := stream_execute_launches_last fuel command s2). lia.
    + destruct (negb _); cbn; lia.
  - rewrite (stream_execute_not_connected _ _ _ _ C).
    rewrite snd_reconnect_failed.
    destruct (reconnect_frame s) as (F & _).
    destruct (reconnect w s) as [[b|e|] s1]; cbn in *; try lia.
    assert (H := stream_execute_launches_last fuel command s1). lia.
Qed.

(** With the budget it needs, the recovery loop ends. *)
Lemma recovery_total fuel timeout interval s :
  0 < interval -> (recovery_fuel timeout interval <= fuel)%nat ->
  fst (_wait_for_reboot_and_reconnect w fuel timeout interval s) <> Diverge.
Proof.
  intros Hi Hf. rewrite _wait_for_reboot_and_reconnect_eq.
  destruct (recovery_fuel_enough _ _ _ Hi Hf) as (H1 & H2).
  assert (P := wait_loop_post fuel (clock s) (boot_time (self s)) timeout
                 interval (entered_recovery s) Hi H1).
  destruct P as (_ & _ & _ & _ & _ & [(R & _)|(R & _)]).
  - cbn. lia.
  - rewrite R. discriminate.
  - rewrite R. discriminate.
Qed.


Lemma default_interval_pos : 0 < default_interval.
Proof. reflexivity. Qed.

(** With the budget it needs, [stream_execute] ends. *)
Lemma stream_execute_total_last fuel command s :
  (S (recovery_fuel default_timeout default_interval) <= fuel)%nat ->
  fst (stream_execute w fuel command false s) <> Diverge.
Proof.
  destruct fuel as [|fuel]; [lia|]. intros Hf.
  assert (T := recovery_total fuel default_timeout default_interval
                 (after_popen s) default_interval_pos ltac:(lia)).
  destruct (connected (self s)) eqn:C.
  - rewrite (stream_execute_connected_eq _ _ _ _ C).
    destruct (popen_oracle w _ _) as [p|m]; [|cbn; discriminate].
    destruct (returncode p =? 255).
    + destruct (_wait_for_reboot_and_reconnect w fuel _ _ _) as [[b|e|] s2];
        cbn in *; [discriminate|discriminate|congruence].
    + destruct (negb _); cbn; discriminate.
  - rewrite (stream_execute_not_connected _ _ _ _ C).
    destruct (reconnect_frame s) as (_ & _ & F & _).
    destruct (reconnect w s) as [[b|e|] s1]; cbn in *;
      [discriminate|discriminate|congruence].
Qed.

Lemma stream_execute_total fuel command retry s :
  (enough_fuel <= fuel)%nat ->
  fst (stream_execute w fuel command retry s) <> Diverge.
Proof.
  unfold enough_fuel. intros Hf.
  destruct retry; [|apply stream_execute_total_last; lia].
  destruct fuel as [|fuel]; [lia|].
  assert (T := recovery_total fuel default_timeout default_interval
                 (after_popen s) default_interval_pos ltac:(lia)).
  assert (L := fun s' => stream_execute_total_last fuel command s'
                           ltac:(lia)).
  destruct (connected (self s)) eqn:C.
  - rewrite (stream_execute_connected_eq _ _ _ _ C).
    destruct (popen_oracle w _ _) as [p|m]; [|cbn; discriminate].
    destruct (returncode p =? 255).
    + destruct (_wait_for_reboot_and_reconnect w fuel _ _ _) as [[b|e|] s2];
        cbn in *; [|discriminate|congruence].
      specialize (L s2).
      destruct (stream_execute w fuel command false s2) as [[[]|e|] s3];
        cbn in *; [discriminate|discriminate|congruence].
    + destruct (negb _); cbn; discriminate.
  - rewrite (stream_execute_not_connected _ _ _ _ C).
    destruct (reconnect_frame s) as (_ & _ & F & _).
    destruct (reconnect w s) as [[b|e|] s1]; cbn in *;
      [|discriminate|congruence].
    specialize (L s1).
    destruct (stream_execute w fuel command false s1) as [[[]|e|] s3];
      cbn in *; [discriminate|discriminate|congruence].
Qed.

(** *** The [connected] flag *)

Lemma wait_loop_connected fuel :
  forall start old timeout interval s,
    connected (self (snd (wait_loop w fuel start old timeout interval s)))
    = match fst (wait_loop w fuel start old timeout interval s) with
      | Return _ => true
      | _ => connected (self s)
      end.
Proof.
  induction fuel as [|fuel IH]; intros start old timeout interval s.
  - reflexivity.
  - rewrite wait_loop_step.
    destruct (clock s - start <? timeout); [|reflexivity].
    cbv zeta. destruct (truthy_str _); [reflexivity|].
    destruct (interval <? 0); [reflexivity|].
    apply (IH start old timeout interval
              (after_sleep w interval (after_run w (uptime_argv (self s)) s))).
Qed.

Lemma stream_execute_keeps_connected fuel :
  forall command retry s,
    connected (self s) = true ->
    connected (self (snd (stream_execute w fuel command retry s))) = true.
Proof.
  induction fuel as [|fuel IH]; intros command retry s C; [exact C|].
  rewrite (stream_execute_connected_eq _ _ _ _ C).
  destruct (popen_oracle w _ _) as [p|m]; [|exact C].
  destruct (returncode p =? 255).
  - rewrite snd_streaming_wrapped.
    assert (F := recovery_frame fuel default_timeout default_interval
                   (after_popen s)).
    cbv zeta in F. destruct F as (_ & _ & F). specialize (F C).
    destruct (_wait_for_reboot_and_reconnect w fuel _ _ _) as [[b|e|] s2];
      cbn in *; try exact F.
    destruct retry; [apply IH; exact F|exact F].
  - destruct (negb _); exact C.
Qed.

End Facts.

(** ** The boot-time tracker *)

(** A refresh whose two queries read the same fingerprint returns [True],
    whatever value was stored before the call: the value it compares is the
    one its own probe has just stored. *)
Lemma reconnect_same_fingerprint_twice w s :
  probe_ok (probe_outcome w (self s) (runs s)) = true ->
  fingerprint_of (probe_outcome w (self s) (runs s))
  = fingerprint_of (probe_outcome w (self s) (S (runs s))) ->
  fst (reconnect w s) = Return true
  /\ boot_time (self (snd (reconnect w s)))
     = Some (fingerprint_of (probe_outcome w (self s) (runs s))).
Proof.
  intros P E. rewrite (reconnect_reachable w s P). cbv zeta. rewrite <- E.
  rewrite String.eqb_refl, andb_false_r. split; reflexivity.
Qed.

(** C1: with B1 stored by earlier refreshes and a host that now reads B2, the
    specification asks for RebootDetected("B1","B2").  The fourth refresh of
    the scenario returns [True] like the first three and stores "B2": no
    reboot is reported. *)
Theorem refresh_scenario_reports_no_reboot :
  fst (refreshes world_reboot_between_refreshes 4 (initial_state target))
  = [Return true; Return true; Return true; Return true]
  /\ boot_time
       (self (snd (refreshes world_reboot_between_refreshes 3
                     (initial_state target))))
     = Some "B1"
  /\ boot_time
       (self (snd (refreshes world_reboot_between_refreshes 4
                     (initial_state target))))
     = Some "B2".
Proof. vm_compute. repeat split. Qed.

(** C10: when the probe succeeds with a non-empty fingerprint and the second
    boot-time query of the same call raises, [reconnect] raises
    [RemoteRebootDetected] with the empty string as the new value and stores
    the empty string as [boot_time]. *)
Theorem reconnect_reports_reboot_on_failed_query w s p msg :
  probe_outcome w (self s) (runs s) = Completed p ->
  returncode p = 0 ->
  strip (stdout p) <> "" ->
  probe_outcome w (self s) (S (runs s)) = RunRaised msg ->
  fst (reconnect w s)
  = Raise (RemoteRebootDetected
             ("Remote host rebooted! Old: " ++ strip (stdout p)
              ++ ", New: " ++ ""))
  /\ boot_time (self (snd (reconnect w s))) = Some "".
Proof.
  intros O1 R F O2.
  assert (P : probe_ok (probe_outcome w (self s) (runs s)) = true)
    by (rewrite O1; cbn; rewrite R; reflexivity).
  rewrite (reconnect_reachable w s P). cbv zeta. rewrite O1, O2.
  cbn [fingerprint_of].
  destruct (strip (stdout p)) as [|c r] eqn:E; [contradiction|].
  split; reflexivity.
Qed.

Lemma reconnect_reports_reboot_on_failed_query_witness :
  fst (reconnect world_second_query_fails connected_target)
  = Raise (RemoteRebootDetected "Remote host rebooted! Old: B1, New: ")
  /\ boot_time (self (snd (reconnect world_second_query_fails
                             connected_target))) = Some "".
Proof.
  apply (reconnect_reports_reboot_on_failed_query world_second_query_fails
           connected_target (mkCompleted 0 ("B1" ++ newline))
           "timed out after 5 seconds").
  - reflexivity.
  - reflexivity.
  - vm_compute. discriminate.
  - reflexivity.
Defined.

(** ** The liveness probe *)

(** C7: [is_alive] always returns a boolean and never raises: [True] exactly
    when the ssh probe completed with exit code 0, and [False] for every
    other answer or error of the ssh probe and every answer or error of the
    ping. *)
Theorem is_alive_never_raises w s :
  fst (is_alive w s) = Return (probe_ok (probe_outcome w (self s) (runs s))).
Proof.
  rewrite is_alive_eq.
  destruct (probe_ok (probe_outcome w (self s) (runs s))); reflexivity.
Qed.

(** C8: when the ssh probe fails, whatever the ping does, [is_alive] returns
    [False] and [reconnect] returns [False], and both leave [boot_time] as it
    was. *)
Theorem unreachable_keeps_boot_time w s :
  probe_ok (probe_outcome w (self s) (runs s)) = false ->
  (fst (is_alive w s) = Return false
   /\ boot_time (self (snd (is_alive w s))) = boot_time (self s))
  /\ (fst (reconnect w s) = Return false
      /\ boot_time (self (snd (reconnect w s))) = boot_time (self s)).
Proof.
  intros P. rewrite (reconnect_unreachable w s P), is_alive_eq, P.
  repeat split.
Qed.

Lemma unreachable_keeps_boot_time_witness :
  (fst (is_alive world_down connected_target) = Return false
   /\ boot_time (self (snd (is_alive world_down connected_target)))
      = Some "B1")
  /\ (fst (reconnect world_down connected_target) = Return false
      /\ boot_time (self (snd (reconnect world_down connected_target)))
         = Some "B1").
Proof.
  apply (unreachable_keeps_boot_time world_down connected_target).
  reflexivity.
Defined.

(** C6, as stated: a probe that fails on a connected object returns [False]
    and leaves [connected] true. *)
Lemma failed_probe_leaves_connected_true :
  fst (is_alive world_down connected_target) = Return false
  /\ connected (self connected_target) = true
  /\ connected (self (snd (is_alive world_down connected_target))) = true.
Proof. vm_compute. repeat split. Qed.

(** C6, amended: [connected] becomes true by a successful probe or a
    successful recovery and by nothing else, and no method sets it to false:
    after a failed probe and after a recovery that did not succeed it has the
    value it had before. *)
Theorem connected_only_ever_raised w fuel timeout interval command retry s :
  connected (self (snd (is_alive w s)))
  = (probe_ok (probe_outcome w (self s) (runs s)) || connected (self s))
  /\ connected
       (self (snd (_wait_for_reboot_and_reconnect w fuel timeout interval s)))
     = match fst (_wait_for_reboot_and_reconnect w fuel timeout interval s)
       with
       | Return _ => true
       | _ => connected (self s)
       end
  /\ implb (connected (self s)) (connected (self (snd (reconnect w s))))
     = true
  /\ implb (connected (self s))
           (connected (self (snd (stream_execute w fuel command retry s))))
     = true.
Proof.
  split; [|split; [|split]].
  - rewrite is_alive_eq.
    destruct (probe_ok (probe_outcome w (self s) (runs s))); reflexivity.
  - rewrite _wait_for_reboot_and_reconnect_eq.
    apply (wait_loop_connected w fuel (clock s) (boot_time (self s)) timeout
             interval (entered_recovery s)).
  - destruct (connected (self s)) eqn:C; [|reflexivity].
    destruct (reconnect_frame w s) as (_ & _ & _ & F). rewrite (F C).
    reflexivity.
  - destruct (connected (self s)) eqn:C; [|reflexivity].
    rewrite (stream_execute_keeps_connected w fuel command retry s C).
    reflexivity.
Qed.

(** The class has no attribute [execute]. *)
Lemma hasattr_execute : hasattr "execute" = false.
Proof. reflexivity. Qed.

(** C9: [was_rebooted] never returns and never changes the object: the
    lookup of [execute] fails, since the class defines no such method, and
    [AttributeError] is not what its [except] clause catches.  This holds
    whatever an [execute] would have done. *)
Theorem was_rebooted_always_raises
    (execute_impl : string -> Z -> M (Z * string * string)) (s : State) :
  was_rebooted execute_impl s
  = (Raise (AttributeError
              "'RemoteExecutor' object has no attribute 'execute'"), s).
Proof.
  unfold was_rebooted, try_except, bind, getattr.
  rewrite hasattr_execute. reflexivity.
Qed.

(** ** The recovery loop *)



(** ** The command executor *)

(** Entered not connected, a refresh that raises the reboot signal ends the
    call: the signal is caught by the [except Exception] clause around the
    refresh and comes out as [RemoteExecutionError], whether or not a retry
    remains; the command is never started. *)
Lemma stream_execute_reboot_on_reconnect w fuel command retry s m :
  connected (self s) = false ->
  fst (reconnect w s) = Raise (RemoteRebootDetected m) ->
  stream_execute w (S fuel) command retry s
  = (Raise (RemoteExecutionError ("Reconnect failed: " ++ m)),
     snd (reconnect w s)).
Proof.
  intros C R. rewrite (stream_execute_not_connected w _ _ _ _ C).
  destruct (reconnect w s) as [r s1]. cbn in R. subst r. reflexivity.
Qed.

(** C3: the specification asks that a reboot reported by the refresh be
    recovered from when a retry remains.  On a fresh object, with a retry
    left and a command that would succeed, a refresh that reports the reboot
    B1 -> B2 makes the call fail with "Reconnect failed"; the command is not
    started. *)
Theorem reboot_on_reconnect_is_not_retried :
  connected (self (initial_state target)) = false
  /\ fst (reconnect world_reboot_inside_refresh (initial_state target))
     = Raise (RemoteRebootDetected "Remote host rebooted! Old: B1, New: B2")
  /\ fst (stream_execute world_reboot_inside_refresh enough_fuel "uptime" true
            (initial_state target))
     = Raise (RemoteExecutionError
                "Reconnect failed: Remote host rebooted! Old: B1, New: B2")
  /\ popens (snd (stream_execute world_reboot_inside_refresh enough_fuel
                    "uptime" true (initial_state target))) = 0%nat.
Proof. vm_compute. repeat split. Qed.

(** C5: on a connected object a command that exits with a code other than 0
    and 255 makes the call raise [RemoteExecutionError] naming the code, at
    once: the command was started once, no boot-time query was made, no time
    was spent and the recovery loop was not entered. *)
Theorem other_exit_code_fails_at_once w fuel command retry s p :
  connected (self s) = true ->
  popen_oracle w (popens s) (build_ssh_command (self s) command)
  = Completed p ->
  returncode p <> 0 ->
  returncode p <> 255 ->
  stream_execute w (S fuel) command retry s
  = (Raise (RemoteExecutionError
              ("Streaming command failed: Command failed with code "
               ++ str_int (returncode p))),
     after_popen s)
  /\ recoveries (after_popen s) = recoveries s
  /\ popens (after_popen s) = S (popens s).
Proof.
  intros C O N0 N255. split; [|split; reflexivity].
  rewrite (stream_execute_connected_eq w _ _ _ _ C), O.
  apply Z.eqb_neq in N0, N255. rewrite N0, N255. reflexivity.
Qed.

Lemma other_exit_code_fails_at_once_witness :
  stream_execute world_false enough_fuel "false" true connected_target
  = (Raise (RemoteExecutionError
              "Streaming command failed: Command failed with code 1"),
     after_popen connected_target)
  /\ recoveries (after_popen connected_target) = 0%nat
  /\ popens (after_popen connected_target) = 1%nat.
Proof.
  apply (other_exit_code_fails_at_once world_false (pred enough_fuel) "false"
           true connected_target (mkCompleted 1 "")).
  - reflexivity.
  - reflexivity.
  - discriminate.
  - discriminate.
Defined.



(** * Further properties of the code *)

Section MoreFacts.

Variable w : World.

(** ** Order of states *)

Lemma later_refl s : later s s.
Proof. unfold later. repeat split; lia. Qed.

Lemma later_trans s1 s2 s3 : later s1 s2 -> later s2 s3 -> later s1 s3.
Proof.
  unfold later. intros (I1 & A1 & B1 & C1 & D1 & E1) (I2 & A2 & B2 & C2 & D2 & E2).
  repeat split; try lia. congruence.
Qed.

Lemma later_after_run argv s : later s (after_run w argv s).
Proof. unfold later. cbn. repeat split; lia. Qed.

Lemma later_after_popen s : later s (after_popen s).
Proof. unfold later. cbn. repeat split; lia. Qed.

Lemma later_set_connected b s : later s (set_connected b s).
Proof. unfold later. cbn. repeat split; lia. Qed.

Lemma later_set_boot_time v s : later s (set_boot_time v s).
Proof. unfold later. cbn. repeat split; lia. Qed.

Lemma later_entered_recovery s : later s (entered_recovery s).
Proof. unfold later. cbn. repeat split; lia. Qed.

Lemma later_after_sleep ms s : 0 <= ms -> later s (after_sleep w ms s).
Proof. unfold later. cbn. repeat split; lia. Qed.

Lemma build_ssh_command_identity o o' command :
  identity o = identity o' ->
  build_ssh_command o command = build_ssh_command o' command.
Proof.
  unfold identity, build_ssh_command. intros [= H1 H2 H3 H4].
  rewrite H1, H2, H3, H4. reflexivity.
Qed.

Lemma is_alive_later s : later s (snd (is_alive w s)).
Proof.
  rewrite is_alive_eq. destruct (probe_ok _); cbn [snd].
  - unfold after_good_probe.
    eapply later_trans; [apply later_after_run|].
    eapply later_trans; [apply later_set_boot_time|].
    apply later_set_connected.
  - unfold after_failed_probe.
    eapply later_trans; apply later_after_run.
Qed.

Lemma reconnect_later s : later s (snd (reconnect w s)).
Proof.
  destruct (probe_ok (probe_outcome w (self s) (runs s))) eqn:P.
  - rewrite (reconnect_reachable w s P). cbv zeta.
    assert (L : later s
                  (set_boot_time
                     (Some (fingerprint_of
                              (probe_outcome w (self s) (S (runs s)))))
                     (after_run w (uptime_argv (self s))
                        (after_good_probe w
                           (fingerprint_of
                              (probe_outcome w (self s) (runs s))) s)))).
    { unfold after_good_probe.
      eapply later_trans; [apply later_after_run|].
      eapply later_trans; [apply later_set_boot_time|].
      eapply later_trans; [apply later_set_connected|].
      eapply later_trans; [apply later_after_run|].
      apply later_set_boot_time. }
    destruct (truthy_str _ && negb _); exact L.
  - rewrite (reconnect_unreachable w s P). cbn [snd].
    unfold after_failed_probe. eapply later_trans; apply later_after_run.
Qed.

Lemma wait_loop_later fuel :
  forall start old timeout interval s,
    later s (snd (wait_loop w fuel start old timeout interval s)).
Proof.
  induction fuel as [|fuel IH]; intros start old timeout interval s.
  - apply later_refl.
  - rewrite wait_loop_step.
    destruct (clock s - start <? timeout); [|apply later_refl].
    cbv zeta. destruct (truthy_str _).
    + cbn [snd]. eapply later_trans; [apply later_after_run|].
      eapply later_trans; [apply later_set_connected|].
      apply later_set_boot_time.
    + destruct (interval <? 0) eqn:N; [apply later_after_run|].
      apply Z.ltb_ge in N.
      eapply later_trans; [apply later_after_run|].
      eapply later_trans; [apply (later_after_sleep interval _ N)|].
      apply IH.
Qed.

Lemma recovery_later fuel timeout interval s :
  later s (snd (_wait_for_reboot_and_reconnect w fuel timeout interval s)).
Proof.
  rewrite _wait_for_reboot_and_reconnect_eq.
  eapply later_trans; [apply later_entered_recovery|apply wait_loop_later].
Qed.

Lemma stream_execute_later fuel :
  forall command retry s,
    later s (snd (stream_execute w fuel command retry s)).
Proof.
  induction fuel as [|fuel IH]; intros command retry s; [apply later_refl|].
  destruct (connected (self s)) eqn:C.
  - rewrite (stream_execute_connected_eq w _ _ _ _ C).
    destruct (popen_oracle w _ _) as [p|m]; [|apply later_after_popen].
    destruct (returncode p =? 255).
    + rewrite snd_streaming_wrapped.
      assert (L := recovery_later fuel default_timeout default_interval
                     (after_popen s)).
      destruct (_wait_for_reboot_and_reconnect w fuel _ _ _) as [[b|e|] s2];
        cbn [snd] in *.
      * assert (L2 : later s s2)
          by (eapply later_trans; [apply later_after_popen|exact L]).
        destruct retry; [|exact L2].
        eapply later_trans; [exact L2|apply IH].
      * eapply later_trans; [apply later_after_popen|exact L].
      * eapply later_trans; [apply later_after_popen|exact L].
    + destruct (negb _); apply later_after_popen.
  - rewrite (stream_execute_not_connected w _ _ _ _ C).
    rewrite snd_reconnect_failed.
    assert (L := reconnect_later s).
    destruct (reconnect w s) as [[b|e|] s1]; cbn [snd] in *; try exact L.
    destruct retry; [|exact L].
    eapply later_trans; [exact L|apply IH].
Qed.

(** ** The budget does not matter *)

Lemma fst_streaming_wrapped_diverge r :
  fst (streaming_wrapped r) = Diverge -> fst r = Diverge.
Proof. destruct r as [[[]|e|] s]; cbn; congruence. Qed.

Lemma fst_reconnect_failed_diverge r :
  fst (reconnect_failed r) = Diverge -> fst r = Diverge.
Proof. destruct r as [[[]|e|] s]; cbn; congruence. Qed.




End MoreFacts.

(** ** The command line *)

(** X1: every command line is non-interactive and ends with the command: it
    starts with [ssh], carries [BatchMode=yes] and [ConnectTimeout=5], and
    its last word is the command.  It has two words more ([-i] and the key)
    exactly when [key_file] is a non-empty string: an empty [key_file] counts
    as none. *)
Theorem build_ssh_command_shape o command :
  hd "" (build_ssh_command o command) = "ssh"
  /\ last (build_ssh_command o command) "" = command
  /\ In "BatchMode=yes" (build_ssh_command o command)
  /\ In "ConnectTimeout=5" (build_ssh_command o command)
  /\ List.length (build_ssh_command o command)
     = (if truthy (key_file o) then 11 else 9)%nat
  /\ build_ssh_command
       (mkRemoteExecutor (hostname o) (username o) (Some "") (port o)
                         (connected o) (boot_time o)) command
     = build_ssh_command
         (mkRemoteExecutor (hostname o) (username o) None (port o)
                           (connected o) (boot_time o)) command.
Proof.
  unfold build_ssh_command.
  destruct (key_file o) as [[|c k]|]; cbn [truthy truthy_str tl hd last];
    repeat split; cbn; auto 14.
Qed.

(** ** More on the boot-time tracker *)

(** X2: what [reconnect] returns or raises does not depend on the boot time
    stored before the call: the value it compares with the second query is
    the one its own probe has just read. *)
Theorem reconnect_ignores_stored_boot_time w s v :
  fst (reconnect w (set_boot_time v s)) = fst (reconnect w s).
Proof.
  destruct (probe_ok (probe_outcome w (self s) (runs s))) eqn:P.
  - rewrite (reconnect_reachable w s P).
    rewrite (reconnect_reachable w (set_boot_time v s) P).
    cbv zeta.
    change (probe_outcome w (self (set_boot_time v s))
              (runs (set_boot_time v s)))
      with (probe_outcome w (self s) (runs s)).
    change (probe_outcome w (self (set_boot_time v s))
              (S (runs (set_boot_time v s))))
      with (probe_outcome w (self s) (S (runs s))).
    destruct (truthy_str _ && negb _); reflexivity.
  - rewrite (reconnect_unreachable w s P).
    rewrite (reconnect_unreachable w (set_boot_time v s) P). reflexivity.
Qed.

(** X3: whenever [reconnect] raises, it raises [RemoteRebootDetected] naming
    two different fingerprints read during this very call, the old one not
    empty; the object is then connected and stores the new one. *)
Theorem reconnect_raises_only_reboot w s e :
  fst (reconnect w s) = Raise e ->
  let old := fingerprint_of (probe_outcome w (self s) (runs s)) in
  let new := fingerprint_of (probe_outcome w (self s) (S (runs s))) in
  e = RemoteRebootDetected
        ("Remote host rebooted! Old: " ++ old ++ ", New: " ++ new)
  /\ old <> "" /\ old <> new
  /\ probe_ok (probe_outcome w (self s) (runs s)) = true
  /\ connected (self (snd (reconnect w s))) = true
  /\ boot_time (self (snd (reconnect w s))) = Some new.
Proof.
  destruct (probe_ok (probe_outcome w (self s) (runs s))) eqn:P.
  - rewrite (reconnect_reachable w s P). cbv zeta.
    destruct (truthy_str _) eqn:T; cbn [andb];
      [|cbn; discriminate].
    destruct (String.eqb _ _) eqn:E; cbn [negb fst snd]; [discriminate|].
    intros [= <-]. apply truthy_str_true in T. apply String.eqb_neq in E.
    repeat split; assumption.
  - rewrite (reconnect_unreachable w s P). cbn. discriminate.
Qed.

Lemma reconnect_raises_only_reboot_witness :
  RemoteRebootDetected "Remote host rebooted! Old: B1, New: B2"
  = RemoteRebootDetected ("Remote host rebooted! Old: " ++ "B1"
                          ++ ", New: " ++ "B2")
  /\ "B1" <> "" /\ "B1" <> "B2"
  /\ probe_ok (probe_outcome world_reboot_inside_refresh
                 (self (initial_state target)) 0) = true
  /\ connected (self (snd (reconnect world_reboot_inside_refresh
                            (initial_state target)))) = true
  /\ boot_time (self (snd (reconnect world_reboot_inside_refresh
                            (initial_state target)))) = Some "B2".
Proof.
  apply (reconnect_raises_only_reboot world_reboot_inside_refresh
           (initial_state target)).
  reflexivity.
Defined.

(** X4: when [reconnect] returns [True] the object is connected and
    [boot_time] is a string, the fingerprint of the second query (never
    [None]). *)
Theorem reconnect_true_sets_boot_time w s :
  fst (reconnect w s) = Return true ->
  connected (self (snd (reconnect w s))) = true
  /\ boot_time (self (snd (reconnect w s)))
     = Some (fingerprint_of (probe_outcome w (self s) (S (runs s))))
  /\ runs (snd (reconnect w s)) = S (S (runs s)).
Proof.
  destruct (probe_ok (probe_outcome w (self s) (runs s))) eqn:P.
  - rewrite (reconnect_reachable w s P). cbv zeta.
    destruct (truthy_str _ && negb _); cbn; [discriminate|].
    intros _. repeat split.
  - rewrite (reconnect_unreachable w s P). cbn. discriminate.
Qed.

Lemma reconnect_true_sets_boot_time_witness :
  connected (self (snd (reconnect world_up (initial_state target)))) = true
  /\ boot_time (self (snd (reconnect world_up (initial_state target))))
     = Some "B1"
  /\ runs (snd (reconnect world_up (initial_state target))) = 2%nat.
Proof.
  apply (reconnect_true_sets_boot_time world_up (initial_state target)).
  reflexivity.
Defined.

(** ** More on the command executor *)

(** X5: the only exception that leaves [stream_execute] is
    [RemoteExecutionError]; in particular [RemoteRebootDetected] never
    reaches the caller. *)
Theorem stream_execute_raises_only_execution_error w fuel command retry s e :
  fst (stream_execute w fuel command retry s) = Raise e ->
  exists msg, e = RemoteExecutionError msg.
Proof.
  intros H. apply stream_execute_raises in H.
  destruct e; try discriminate H. eexists. reflexivity.
Qed.

Lemma stream_execute_raises_only_execution_error_witness :
  exists msg,
    RemoteExecutionError
      "Reconnect failed: Remote host rebooted! Old: B1, New: B2"
    = RemoteExecutionError msg.
Proof.
  apply (stream_execute_raises_only_execution_error
           world_reboot_inside_refresh enough_fuel "uptime" true
           (initial_state target)).
  reflexivity.
Defined.



Lemma stream_execute_return_exit_zero w fuel :
  forall command retry s,
    fst (stream_execute w fuel command retry s) = Return tt ->
    (popens s < popens (snd (stream_execute w fuel command retry s)))%nat
    /\ exists p,
         popen_oracle w
           (pred (popens (snd (stream_execute w fuel command retry s))))
           (build_ssh_command (self s) command) = Completed p
         /\ returncode p = 0.
Proof.
  induction fuel as [|fuel IH]; intros command retry s; [cbn; discriminate|].
  destruct (connected (self s)) eqn:C.
  - rewrite (stream_execute_connected_eq w _ _ _ _ C).
    destruct (popen_oracle w (popens s) _) as [p|m] eqn:O;
      [|cbn; discriminate].
    destruct (returncode p =? 255) eqn:R255.
    + assert (L := recovery_later w fuel default_timeout default_interval
                     (after_popen s)).
      destruct (_wait_for_reboot_and_reconnect w fuel _ _ _) as [[b|e|] s2];
        cbn [snd] in L; [|cbn; discriminate|cbn; discriminate].
      destruct retry; [|cbn; discriminate].
      destruct L as (I & _ & _ & L & _).
      assert (B := build_ssh_command_identity (self s2) (self s) command I).
      specialize (IH command false s2).
      destruct (stream_execute w fuel command false s2) as [[[]|e|] s3];
        cbn [fst snd streaming_wrapped] in *; try discriminate.
      intros _. destruct (IH eq_refl) as (H1 & p' & H2 & H3).
      split; [cbn in L; lia|]. exists p'. rewrite <- B. auto.
    + destruct (returncode p =? 0) eqn:R0; cbn [negb]; [|cbn; discriminate].
      intros _. cbn. split; [lia|]. exists p. split; [exact O|].
      apply Z.eqb_eq. exact R0.
  - rewrite (stream_execute_not_connected w _ _ _ _ C).
    assert (L := reconnect_later w s).
    destruct (reconnect w s) as [[b|e|] s1]; cbn [snd] in L;
      [|cbn; discriminate|cbn; discriminate].
    destruct retry; [|cbn; discriminate].
    destruct L as (I & _ & _ & L & _).
    assert (B := build_ssh_command_identity (self s1) (self s) command I).
    specialize (IH command false s1).
    destruct (stream_execute w fuel command false s1) as [[[]|e|] s3];
      cbn [fst snd reconnect_failed] in *; try discriminate.
    intros _. destruct (IH eq_refl) as (H1 & p' & H2 & H3).
    split; [lia|]. exists p'. rewrite <- B. auto.
Qed.

(** X7: [stream_execute] returns normally only when the command was started
    and its last start exited with code 0. *)
Theorem stream_execute_success_means_exit_zero w fuel command retry s :
  fst (stream_execute w fuel command retry s) = Return tt ->
  (popens s < popens (snd (stream_execute w fuel command retry s)))%nat
  /\ exists p,
       popen_oracle w
         (pred (popens (snd (stream_execute w fuel command retry s))))
         (build_ssh_command (self s) command) = Completed p
       /\ returncode p = 0.
Proof. apply stream_execute_return_exit_zero. Qed.

Lemma stream_execute_success_means_exit_zero_witness :
  (popens (initial_state target)
   < popens (snd (stream_execute world_up enough_fuel "uptime" true
                    (initial_state target))))%nat
  /\ exists p,
       popen_oracle world_up
         (pred (popens (snd (stream_execute world_up enough_fuel "uptime"
                               true (initial_state target)))))
         (build_ssh_command (self (initial_state target)) "uptime")
       = Completed p
       /\ returncode p = 0.
Proof.
  apply (stream_execute_success_means_exit_zero world_up enough_fuel "uptime"
           true (initial_state target)).
  reflexivity.
Defined.

(** X25: in a world where no start of the command exits with code 0 (as for
    the command [false]), every call of [stream_execute] raises
    [RemoteExecutionError], connected or not, reachable host or not. *)
Theorem failing_command_always_raises w fuel command retry s :
  (forall n argv p,
      popen_oracle w n argv = Completed p -> returncode p <> 0) ->
  (enough_fuel <= fuel)%nat ->
  exists msg,
    fst (stream_execute w fuel command retry s)
    = Raise (RemoteExecutionError msg).
Proof.
  intros Hw Hf.
  assert (T := stream_execute_total w fuel command retry s Hf).
  assert (Z := stream_execute_return_exit_zero w fuel command retry s).
  assert (R := stream_execute_raises w fuel command retry s).
  destruct (fst (stream_execute w fuel command retry s)) as [[]|e|].
  - destruct (Z eq_refl) as (_ & p & O & E).
    exfalso. exact (Hw _ _ _ O E).
  - specialize (R e eq_refl). destruct e; try discriminate R.
    eexists. reflexivity.
  - congruence.
Qed.

Lemma failing_command_always_raises_witness :
  exists msg,
    fst (stream_execute world_false enough_fuel "false" true
           (initial_state target))
    = Raise (RemoteExecutionError msg).
Proof.
  apply (failing_command_always_raises world_false enough_fuel "false" true
           (initial_state target)).
  - intros n argv p H. unfold world_false, scripted in H. cbn in H.
    destruct n as [|n]; injection H as <-; discriminate.
  - apply le_n.
Defined.

(** X8: called with [retry_on_reboot=False] on an object that is not
    connected, [stream_execute] always raises [RemoteExecutionError] and
    never starts the command, reachable host or not: after the refresh only
    the bare [raise] is left. *)
Theorem not_connected_without_retry_always_fails w fuel command s :
  connected (self s) = false ->
  (exists msg,
      fst (stream_execute w (S fuel) command false s)
      = Raise (RemoteExecutionError ("Reconnect failed: " ++ msg)))
  /\ popens (snd (stream_execute w (S fuel) command false s)) = popens s
  /\ snd (stream_execute w (S fuel) command false s) = snd (reconnect w s).
Proof.
  intros C. rewrite (stream_execute_not_connected w _ _ _ _ C).
  destruct (reconnect_frame w s) as (F & _ & D & _).
  destruct (reconnect w s) as [[b|e|] s1]; cbn in *.
  - split; [eexists; reflexivity|]. split; [exact F|reflexivity].
  - split; [eexists; reflexivity|]. split; [exact F|reflexivity].
  - congruence.
Qed.

Lemma not_connected_without_retry_always_fails_witness :
  (exists msg,
      fst (stream_execute world_up enough_fuel "uptime" false
             (initial_state target))
      = Raise (RemoteExecutionError ("Reconnect failed: " ++ msg)))
  /\ popens (snd (stream_execute world_up enough_fuel "uptime" false
                    (initial_state target))) = 0%nat
  /\ snd (stream_execute world_up enough_fuel "uptime" false
            (initial_state target))
     = snd (reconnect world_up (initial_state target)).
Proof.
  apply (not_connected_without_retry_always_fails world_up (pred enough_fuel)
           "uptime" (initial_state target)).
  reflexivity.
Defined.

(** X9: a call entered on an object that is not connected starts the command
    at most once: the refresh uses up the retry. *)
Theorem not_connected_launches_at_most_once w fuel command retry s :
  connected (self s) = false ->
  (popens (snd (stream_execute w fuel command retry s)) <= popens s + 1)%nat.
Proof.
  intros C. destruct fuel as [|fuel]; [cbn; lia|].
  rewrite (stream_execute_not_connected w _ _ _ _ C).
  rewrite snd_reconnect_failed.
  destruct (reconnect_frame w s) as (F & _).
  destruct (reconnect w s) as [[b|e|] s1]; cbn in *; try lia.
  destruct retry; [|cbn; lia].
  assert (H := stream_execute_launches_last w fuel command s1). lia.
Qed.

Lemma not_connected_launches_at_most_once_witness :
  (popens (snd (stream_execute world_refusing enough_fuel "uptime" true
                  (initial_state target))) <= 0 + 1)%nat.
Proof.
  apply (not_connected_launches_at_most_once world_refusing enough_fuel
           "uptime" true (initial_state target)).
  reflexivity.
Defined.

(** X10: the first call on an object that is not connected, with a host
    whose two boot-time answers agree and a command that exits with 0,
    returns normally: two queries, one start of the command; the object is
    connected and stores the fingerprint. *)
Theorem first_call_on_reachable_host w fuel command s p :
  connected (self s) = false ->
  probe_ok (probe_outcome w (self s) (runs s)) = true ->
  fingerprint_of (probe_outcome w (self s) (runs s))
  = fingerprint_of (probe_outcome w (self s) (S (runs s))) ->
  popen_oracle w (popens s) (build_ssh_command (self s) command)
  = Completed p ->
  returncode p = 0 ->
  let s' := snd (stream_execute w (S (S fuel)) command true s) in
  fst (stream_execute w (S (S fuel)) command true s) = Return tt
  /\ connected (self s') = true
  /\ boot_time (self s')
     = Some (fingerprint_of (probe_outcome w (self s) (runs s)))
  /\ runs s' = S (S (runs s))
  /\ popens s' = S (popens s)
  /\ recoveries s' = recoveries s.
Proof.
  intros C P E O R. cbv zeta.
  rewrite (stream_execute_not_connected w _ _ _ _ C).
  rewrite (reconnect_reachable w s P). cbv zeta. rewrite <- E.
  rewrite String.eqb_refl, andb_false_r.
  set (s1 := set_boot_time _ _).
  assert (C1 : connected (self s1) = true) by reflexivity.
  rewrite (stream_execute_connected_eq w _ _ _ _ C1).
  change (popens s1) with (popens s).
  change (build_ssh_command (self s1) command)
    with (build_ssh_command (self s) command).
  rewrite O, R. cbn. repeat split.
Qed.

Lemma first_call_on_reachable_host_witness :
  fst (stream_execute world_up enough_fuel "uptime" true
         (initial_state target)) = Return tt
  /\ connected (self (snd (stream_execute world_up enough_fuel "uptime" true
                             (initial_state target)))) = true
  /\ boot_time (self (snd (stream_execute world_up enough_fuel "uptime" true
                             (initial_state target)))) = Some "B1"
  /\ runs (snd (stream_execute world_up enough_fuel "uptime" true
                  (initial_state target))) = 2%nat
  /\ popens (snd (stream_execute world_up enough_fuel "uptime" true
                    (initial_state target))) = 1%nat
  /\ recoveries (snd (stream_execute world_up enough_fuel "uptime" true
                        (initial_state target))) = 0%nat.
Proof.
  apply (first_call_on_reachable_host world_up (pred (pred enough_fuel))
           "uptime" (initial_state target) (mkCompleted 0 ""));
    reflexivity.
Defined.

(** X11: on a host that cannot be reached, a call on an object that is not
    connected refreshes twice (two ssh probes, two pings), leaves the object
    as it was and raises [RemoteExecutionError] whose text ends in the
    message of the bare [raise]; the command is not started. *)
Theorem unreachable_host_fails_after_two_refreshes w fuel command s :
  connected (self s) = false ->
  probe_ok (probe_outcome w (self s) (runs s)) = false ->
  probe_ok (probe_outcome w (self s) (S (S (runs s)))) = false ->
  let s' := snd (stream_execute w (S (S fuel)) command true s) in
  fst (stream_execute w (S (S fuel)) command true s)
  = Raise (RemoteExecutionError
             "Reconnect failed: Reconnect failed: No active exception to reraise")
  /\ self s' = self s
  /\ runs s' = (4 + runs s)%nat
  /\ popens s' = popens s.
Proof.
  intros C P1 P2. cbv zeta.
  rewrite (stream_execute_not_connected w _ _ _ _ C).
  rewrite (reconnect_unreachable w s P1).
  set (s1 := after_failed_probe w s).
  assert (C1 : connected (self s1) = false) by exact C.
  rewrite (stream_execute_not_connected w _ _ _ _ C1).
  assert (P2' : probe_ok (probe_outcome w (self s1) (runs s1)) = false)
    by exact P2.
  rewrite (reconnect_unreachable w s1 P2'). cbn. repeat split.
Qed.

Lemma unreachable_host_fails_after_two_refreshes_witness :
  fst (stream_execute world_down enough_fuel "uptime" true
         (initial_state target))
  = Raise (RemoteExecutionError
             "Reconnect failed: Reconnect failed: No active exception to reraise")
  /\ self (snd (stream_execute world_down enough_fuel "uptime" true
                  (initial_state target))) = self (initial_state target)
  /\ runs (snd (stream_execute world_down enough_fuel "uptime" true
                  (initial_state target))) = 4%nat
  /\ popens (snd (stream_execute world_down enough_fuel "uptime" true
                    (initial_state target))) = 0%nat.
Proof.
  apply (unreachable_host_fails_after_two_refreshes world_down
           (pred (pred enough_fuel)) "uptime" (initial_state target));
    reflexivity.
Defined.

(** X12: the recovered reboot.  On a connected object, when the command is
    refused (exit code 255), the recovery loop comes back and the second
    start of the command exits with 0, the top-level call returns normally:
    the command was started exactly twice and the recovery loop entered
    once. *)
Theorem retry_after_recovery_succeeds w fuel command s p1 p2 s2 :
  connected (self s) = true ->
  popen_oracle w (popens s) (build_ssh_command (self s) command)
  = Completed p1 ->
  returncode p1 = 255 ->
  _wait_for_reboot_and_reconnect w (S fuel) default_timeout default_interval
    (after_popen s) = (Return true, s2) ->
  popen_oracle w (S (popens s)) (build_ssh_command (self s) command)
  = Completed p2 ->
  returncode p2 = 0 ->
  stream_execute w (S (S fuel)) command true s = (Return tt, after_popen s2)
  /\ popens (after_popen s2) = S (S (popens s))
  /\ recoveries (after_popen s2) = S (recoveries s)
  /\ connected (self (after_popen s2)) = true.
Proof.
  intros C O1 R1 W O2 R2.
  assert (F := recovery_frame w (S fuel) default_timeout default_interval
                 (after_popen s)).
  assert (L := recovery_later w (S fuel) default_timeout default_interval
                 (after_popen s)).
  rewrite W in F, L. cbv zeta in F. cbn [snd] in F, L.
  destruct F as (F1 & F2 & F3). specialize (F3 C).
  destruct L as (I & _).
  assert (B := build_ssh_command_identity (self s2) (self s) command I).
  split; [|cbn in *; repeat split; try lia; exact F3].
  rewrite (stream_execute_connected_eq w _ _ _ _ C), O1, R1.
  cbn [Z.eqb Pos.eqb]. rewrite W.
  rewrite (stream_execute_connected_eq w _ _ _ _ F3).
  rewrite B, F1. cbn [popens after_popen]. rewrite O2, R2. reflexivity.
Qed.

Lemma retry_after_recovery_succeeds_witness :
  stream_execute world_refused_once enough_fuel "uptime" true connected_target
  = (Return tt,
     after_popen
       (snd (_wait_for_reboot_and_reconnect world_refused_once
               (pred enough_fuel) default_timeout default_interval
               (after_popen connected_target))))
  /\ popens (after_popen
               (snd (_wait_for_reboot_and_reconnect world_refused_once
                       (pred enough_fuel) default_timeout default_interval
                       (after_popen connected_target)))) = 2%nat
  /\ recoveries (after_popen
                   (snd (_wait_for_reboot_and_reconnect world_refused_once
                           (pred enough_fuel) default_timeout
                           default_interval (after_popen connected_target))))
     = 1%nat
  /\ connected (self (after_popen
                        (snd (_wait_for_reboot_and_reconnect
                                world_refused_once (pred enough_fuel)
                                default_timeout default_interval
                                (after_popen connected_target))))) = true.
Proof.
  apply (retry_after_recovery_succeeds world_refused_once
           (pred (pred enough_fuel)) "uptime" connected_target
           (mkCompleted 255 "") (mkCompleted 0 ""));
    reflexivity.
Defined.

(** X13: on a connected object a command that exits with 0 makes the call
    return at once; an error raised while the command is started or streamed
    comes out as [RemoteExecutionError] naming it.  Either way the command
    was started once and nothing else happened. *)
Theorem connected_call_without_refusal w fuel command retry s :
  connected (self s) = true ->
  (forall p,
      popen_oracle w (popens s) (build_ssh_command (self s) command)
      = Completed p ->
      returncode p = 0 ->
      stream_execute w (S fuel) command retry s = (Return tt, after_popen s))
  /\ (forall m,
         popen_oracle w (popens s) (build_ssh_command (self s) command)
         = RunRaised m ->
         stream_execute w (S fuel) command retry s
         = (Raise (RemoteExecutionError ("Streaming command failed: " ++ m)),
            after_popen s)).
Proof.
  intros C. split.
  - intros p O R.
    rewrite (stream_execute_connected_eq w _ _ _ _ C), O, R. reflexivity.
  - intros m O.
    rewrite (stream_execute_connected_eq w _ _ _ _ C), O. reflexivity.
Qed.

Lemma connected_call_without_refusal_witness :
  stream_execute world_up enough_fuel "uptime" true connected_target
  = (Return tt, after_popen connected_target)
  /\ stream_execute world_no_ssh enough_fuel "uptime" true connected_target
     = (Raise (RemoteExecutionError
                 "Streaming command failed: [Errno 2] No such file or directory: 'ssh'"),
        after_popen connected_target).
Proof.
  split.
  - apply (proj1 (connected_call_without_refusal world_up (pred enough_fuel)
                    "uptime" true connected_target eq_refl)
             (mkCompleted 0 "")); reflexivity.
  - apply (proj2 (connected_call_without_refusal world_no_ssh
                    (pred enough_fuel) "uptime" true connected_target
                    eq_refl)); reflexivity.
Defined.

(** ** More on the recovery loop *)

(** X14: with a time-out that is not positive the recovery loop raises its
    time-out error at once: no boot-time query is made and the object is
    untouched. *)
Theorem recovery_without_time_fails_at_once w fuel timeout interval s :
  timeout <= 0 ->
  _wait_for_reboot_and_reconnect w (S fuel) timeout interval s
  = (Raise timeout_error, entered_recovery s).
Proof.
  intros H. rewrite _wait_for_reboot_and_reconnect_eq, wait_loop_step.
  change (clock (entered_recovery s)) with (clock s).
  replace (clock s - clock s <? timeout) with false; [reflexivity|].
  symmetry. apply Z.ltb_ge. lia.
Qed.

Lemma recovery_without_time_fails_at_once_witness :
  _wait_for_reboot_and_reconnect world_up 1 0 default_interval
    connected_target
  = (Raise timeout_error, entered_recovery connected_target).
Proof.
  apply (recovery_without_time_fails_at_once world_up 0 0 default_interval
           connected_target).
  lia.
Defined.

(** X15: with a negative poll interval, a first boot-time query that yields
    nothing makes the recovery loop fail with the [ValueError] of
    [time.sleep], which is not a [RemoteExecutionError]: one query was made,
    the object is untouched. *)
Theorem recovery_with_negative_interval w fuel timeout interval s :
  0 < timeout ->
  interval < 0 ->
  fingerprint_of (probe_outcome w (self s) (runs s)) = "" ->
  _wait_for_reboot_and_reconnect w (S fuel) timeout interval s
  = (Raise (ValueError "sleep length must be non-negative"),
     after_run w (uptime_argv (self s)) (entered_recovery s)).
Proof.
  intros Ht Hi F. rewrite _wait_for_reboot_and_reconnect_eq, wait_loop_step.
  change (clock (entered_recovery s)) with (clock s).
  change (self (entered_recovery s)) with (self s).
  change (runs (entered_recovery s)) with (runs s).
  replace (clock s - clock s <? timeout) with true
    by (symmetry; apply Z.ltb_lt; lia).
  cbv zeta. rewrite F. cbn [truthy_str].
  replace (interval <? 0) with true by (symmetry; apply Z.ltb_lt; lia).
  reflexivity.
Qed.

Lemma recovery_with_negative_interval_witness :
  _wait_for_reboot_and_reconnect world_down 1 default_timeout (-1)
    connected_target
  = (Raise (ValueError "sleep length must be non-negative"),
     after_run world_down (uptime_argv (self connected_target))
       (entered_recovery connected_target)).
Proof.
  apply (recovery_with_negative_interval world_down 0 default_timeout (-1)
           connected_target); reflexivity.
Defined.

(** ** Invariants *)

(** X16: no method changes the target: [hostname], [username], [key_file]
    and [port] are after [is_alive], [reconnect], the recovery loop and
    [stream_execute] what they were before, so every command line of a call
    is built for the same target. *)
Theorem methods_keep_identity w fuel timeout interval command retry s :
  identity (self (snd (is_alive w s))) = identity (self s)
  /\ identity (self (snd (reconnect w s))) = identity (self s)
  /\ identity
       (self (snd (_wait_for_reboot_and_reconnect w fuel timeout interval s)))
     = identity (self s)
  /\ identity (self (snd (stream_execute w fuel command retry s)))
     = identity (self s).
Proof.
  split; [apply is_alive_later|].
  split; [apply reconnect_later|].
  split; [apply recovery_later|apply stream_execute_later].
Qed.

(** ** The polling loop of the entry point *)

(** One turn of the loop: whatever the call did, the pause follows. *)
Lemma polling_loop_turn w fuel n s :
  (enough_fuel <= fuel)%nat ->
  polling_loop w fuel (S n) s
  = polling_loop w fuel n
      (after_sleep w 1000 (snd (stream_execute w fuel "uptime" true s))).
Proof.
  intros Hf. cbn [polling_loop]. unfold bind at 1. unfold try_except.
  unfold bind at 1.
  assert (T := stream_execute_total w fuel "uptime" true s Hf).
  assert (R := stream_execute_raises w fuel "uptime" true s).
  destruct (stream_execute w fuel "uptime" true s) as [[[]|e|] s1];
    cbn [fst snd] in *.
  - reflexivity.
  - specialize (R e eq_refl). destruct e; try discriminate R. reflexivity.
  - congruence.
Qed.

(** X17: the polling loop survives every failure.  Whatever the world does,
    [n] turns end normally: no exception escapes, the reboot clause of the
    loop is never taken, so each turn pauses; the command is started at most
    [2 * n] times. *)
Theorem polling_loop_never_raises w fuel n :
  forall s,
    (enough_fuel <= fuel)%nat ->
    fst (polling_loop w fuel n s) = Return tt
    /\ (popens (snd (polling_loop w fuel n s)) <= popens s + 2 * n)%nat
    /\ (sleeps s + n <= sleeps (snd (polling_loop w fuel n s)))%nat
    /\ clock s + 1000 * Z.of_nat n <= clock (snd (polling_loop w fuel n s)).
Proof.
  induction n as [|n IH]; intros s Hf.
  - cbn. repeat split; lia.
  - rewrite (polling_loop_turn w fuel n s Hf).
    set (s1 := snd (stream_execute w fuel "uptime" true s)).
    destruct (IH (after_sleep w 1000 s1) Hf) as (I1 & I2 & I3 & I4).
    assert (L := stream_execute_later w fuel "uptime" true s).
    assert (P := stream_execute_launches w fuel "uptime" true s).
    fold s1 in L, P. destruct L as (_ & L1 & _ & _ & L2 & _).
    cbn [after_sleep popens sleeps clock] in I2, I3, I4.
    repeat split; [exact I1|lia|lia|lia].
Qed.

Lemma polling_loop_never_raises_witness :
  fst (main world_refusing enough_fuel) = Return tt
  /\ (popens (snd (main world_refusing enough_fuel)) <= 0 + 2 * 300)%nat
  /\ (0 + 300 <= sleeps (snd (main world_refusing enough_fuel)))%nat
  /\ 0 + 1000 * Z.of_nat 300 <= clock (snd (main world_refusing enough_fuel)).
Proof.
  apply (polling_loop_never_raises world_refusing enough_fuel 300
           (initial_state (__init__ "hostname" "username" (Some "key") 22))).
  apply le_n.
Defined.

(** * The simulated executor *)

Lemma mock_is_alive_eq s :
  Mock.is_alive s
  = (Return (Mock.run_count (Mock.self s)
             <? Mock.simulated_reboot_after (Mock.self s)),
     Mock.set_connected
       (Mock.run_count (Mock.self s)
        <? Mock.simulated_reboot_after (Mock.self s)) s).
Proof.
  unfold Mock.is_alive, Mock.bind, Mock.get, Mock.modify, Mock.ret, Mock._ping.
  destruct (_ <? _); reflexivity.
Qed.

Lemma mock_reconnect_eq w s :
  Mock.reconnect w s
  = (Return (Mock.run_count (Mock.self s)
             <? Mock.simulated_reboot_after (Mock.self s)),
     Mock.set_connected
       (Mock.run_count (Mock.self s)
        <? Mock.simulated_reboot_after (Mock.self s)) s).
Proof.
  unfold Mock.reconnect. unfold Mock.bind at 1. rewrite mock_is_alive_eq.
  destruct s as [[h u k p c b after count] d t z]. cbn [Mock.self
    Mock.run_count Mock.simulated_reboot_after].
  destruct (count <? after) eqn:L; cbn [negb]; [|reflexivity].
  apply Z.ltb_lt in L.
  assert (E : (count =? after) = false) by (apply Z.eqb_neq; lia).
  unfold Mock._get_boot_time, Mock.bind, Mock.get, Mock.modify, Mock.ret,
    Mock.set_connected, Mock.set_boot_time.
  cbn. rewrite E. cbn. rewrite String.eqb_refl, andb_false_r. reflexivity.
Qed.

(** X18: the simulated [reconnect] never raises: when [is_alive] lets it
    through, [run_count] is below [simulated_reboot_after], so
    [_get_boot_time] hands back the stored boot time and the comparison
    cannot differ.  It returns what [is_alive] returns, sets [connected] to
    that, draws no random number and keeps [boot_time]. *)
Theorem mock_reconnect_never_detects_reboot w s :
  fst (Mock.reconnect w s)
  = Return (Mock.run_count (Mock.self s)
            <? Mock.simulated_reboot_after (Mock.self s))
  /\ Mock.boot_time (Mock.self (snd (Mock.reconnect w s)))
     = Mock.boot_time (Mock.self s)
  /\ Mock.connected (Mock.self (snd (Mock.reconnect w s)))
     = (Mock.run_count (Mock.self s)
        <? Mock.simulated_reboot_after (Mock.self s))
  /\ Mock.draws (snd (Mock.reconnect w s)) = Mock.draws s.
Proof. rewrite mock_reconnect_eq. repeat split. Qed.

(** The simulated [stream_execute] on a connected object. *)
Lemma mock_stream_execute_connected w fuel command retry s :
  Mock.connected (Mock.self s) = true ->
  Mock.stream_execute w (S fuel) command retry s
  = (Mock.turn_result (Mock.simulated_reboot_after (Mock.self s))
       (Mock.run_count (Mock.self s)), s).
Proof.
  intros C. cbn [Mock.stream_execute]. unfold Mock.bind at 1.
  unfold Mock.get at 1. rewrite C. cbn [negb].
  unfold Mock.bind, Mock.get, Mock.turn_result.
  destruct (_ =? _); reflexivity.
Qed.

(** The simulated [stream_execute] on an object that is not connected. *)
Lemma mock_stream_execute_not_connected w fuel command retry s :
  Mock.connected (Mock.self s) = false ->
  let s1 := Mock.set_connected
              (Mock.run_count (Mock.self s)
               <? Mock.simulated_reboot_after (Mock.self s)) s in
  Mock.stream_execute w (S fuel) command retry s
  = if retry then
      match Mock.stream_execute w fuel command false s1 with
      | (Raise (RemoteRebootDetected _), s2) => (Return tt, s2)
      | (Raise e, s2) =>
          (Raise (RemoteExecutionError ("Reconnect failed: " ++ str_exn e)),
           s2)
      | r => r
      end
    else (Raise (RemoteExecutionError "Reconnect failed: Reconnect failed."),
          s1).
Proof.
  intros C. cbv zeta. cbn [Mock.stream_execute]. unfold Mock.bind at 1.
  unfold Mock.get at 1. rewrite C. cbn [negb].
  unfold Mock.try_except. unfold Mock.bind at 1.
  rewrite mock_reconnect_eq.
  destruct retry; [|reflexivity].
  destruct (Mock.stream_execute w fuel command false _) as [[[]|e|] s2];
    try reflexivity.
  destruct e; reflexivity.
Qed.

Lemma mock_stream_execute_eq w fuel command s :
  let after := Mock.simulated_reboot_after (Mock.self s) in
  let count := Mock.run_count (Mock.self s) in
  Mock.stream_execute w (S (S fuel)) command true s
  = if Mock.connected (Mock.self s) then (Mock.turn_result after count, s)
    else if count <? after then (Return tt, Mock.set_connected true s)
    else (Raise (RemoteExecutionError
                   "Reconnect failed: Reconnect failed: Reconnect failed."),
          Mock.set_connected false s).
Proof.
  cbv zeta. destruct (Mock.connected (Mock.self s)) eqn:C.
  - apply mock_stream_execute_connected. exact C.
  - rewrite (mock_stream_execute_not_connected w _ _ _ _ C). cbv zeta.
    destruct (Mock.run_count (Mock.self s)
              <? Mock.simulated_reboot_after (Mock.self s)) eqn:L.
    + rewrite mock_stream_execute_connected by reflexivity.
      unfold Mock.turn_result.
      change (Mock.run_count (Mock.self (Mock.set_connected true s)))
        with (Mock.run_count (Mock.self s)).
      change (Mock.simulated_reboot_after
                (Mock.self (Mock.set_connected true s)))
        with (Mock.simulated_reboot_after (Mock.self s)).
      apply Z.ltb_lt in L.
      replace (_ =? _) with false by (symmetry; apply Z.eqb_neq; lia).
      reflexivity.
    + rewrite mock_stream_execute_not_connected by reflexivity. cbv zeta.
      change (Mock.run_count (Mock.self (Mock.set_connected false s)))
        with (Mock.run_count (Mock.self s)).
      change (Mock.simulated_reboot_after
                (Mock.self (Mock.set_connected false s)))
        with (Mock.simulated_reboot_after (Mock.self s)).
      rewrite L. reflexivity.
Qed.

(** X19: what a top-level call of the simulated [stream_execute] does.  On a
    connected object it fails exactly when [run_count] equals
    [simulated_reboot_after] and changes nothing.  On an object that is not
    connected it connects and returns when [run_count] is below
    [simulated_reboot_after], and otherwise fails after two refreshes with a
    threefold "Reconnect failed". *)
Theorem mock_stream_execute_outcome w fuel command s :
  let after := Mock.simulated_reboot_after (Mock.self s) in
  let count := Mock.run_count (Mock.self s) in
  Mock.stream_execute w (S (S fuel)) command true s
  = if Mock.connected (Mock.self s) then (Mock.turn_result after count, s)
    else if count <? after then (Return tt, Mock.set_connected true s)
    else (Raise (RemoteExecutionError
                   "Reconnect failed: Reconnect failed: Reconnect failed."),
          Mock.set_connected false s).
Proof. apply mock_stream_execute_eq. Qed.

(** One turn of the loop, for a pause that [time.sleep] accepts. *)
Lemma mock_turns_step w fuel pause i n s :
  (forall ms, pause = Some ms -> 0 <= ms) ->
  let s0 := Mock.set_run_count i s in
  let r := Mock.stream_execute w (S (S fuel)) "uptime" true s0 in
  let s2 := match pause with
            | Some ms => Mock.after_sleep w ms (snd r)
            | None => snd r
            end in
  Mock.turns w (S (S fuel)) pause i (S n) s
  = match Mock.turns w (S (S fuel)) pause (i + 1) n s2 with
    | (Return rest, s3) => (Return (fst r :: rest), s3)
    | (Raise e, s3) => (Raise e, s3)
    | (Diverge, s3) => (Diverge, s3)
    end.
Proof.
  intros Hp. cbv zeta. cbn [Mock.turns].
  unfold Mock.bind at 1. unfold Mock.modify at 1.
  unfold Mock.bind at 1. unfold Mock.try_except. unfold Mock.bind at 1.
  rewrite (mock_stream_execute_eq w fuel "uptime" (Mock.set_run_count i s)).
  cbv zeta.
  assert (P : forall s1,
             (match pause with
              | Some ms => Mock.time_sleep w ms
              | None => Mock.ret tt
              end) s1
             = (Return tt, match pause with
                           | Some ms => Mock.after_sleep w ms s1
                           | None => s1
                           end)).
  { intros s1. destruct pause as [ms|]; [|reflexivity].
    unfold Mock.time_sleep.
    replace (ms <? 0) with false
      by (symmetry; apply Z.ltb_ge; apply Hp; reflexivity).
    reflexivity. }
  destruct (Mock.connected (Mock.self (Mock.set_run_count i s))).
  - unfold Mock.turn_result. destruct (_ =? _); cbn [fst snd Mock.ret];
      unfold Mock.bind at 1; rewrite P; unfold Mock.bind, Mock.ret;
      destruct (Mock.turns w _ pause (i + 1) n _) as [[rest|e|] s3];
      reflexivity.
  - destruct (_ <? _); cbn [fst snd Mock.ret];
      unfold Mock.bind at 1; rewrite P; unfold Mock.bind, Mock.ret;
      destruct (Mock.turns w _ pause (i + 1) n _) as [[rest|e|] s3];
      reflexivity.
Qed.

(** X20: the loop of the entry point and of the tests, once the object can
    connect (it is connected, or the first turn is below
    [simulated_reboot_after]): the turn whose number equals
    [simulated_reboot_after] ends in the simulated command failure and every
    other turn returns normally; no turn reports a reboot, no random number
    is drawn and [boot_time] never changes. *)
Theorem mock_turns_results w fuel pause n :
  forall i s,
    (forall ms, pause = Some ms -> 0 <= ms) ->
    Mock.connected (Mock.self s) = true
    \/ i < Mock.simulated_reboot_after (Mock.self s) ->
    fst (Mock.turns w (S (S fuel)) pause i n s)
    = Return (Mock.turn_results (Mock.simulated_reboot_after (Mock.self s))
                i n)
    /\ Mock.boot_time (Mock.self (snd (Mock.turns w (S (S fuel)) pause i n s)))
       = Mock.boot_time (Mock.self s)
    /\ Mock.draws (snd (Mock.turns w (S (S fuel)) pause i n s)) = Mock.draws s.
Proof.
  induction n as [|n IH]; intros i s Hp H.
  - cbn. repeat split.
  - rewrite (mock_turns_step w fuel pause i n s Hp). cbv zeta.
    rewrite (mock_stream_execute_eq w fuel "uptime"
               (Mock.set_run_count i s)). cbv zeta.
    change (Mock.connected (Mock.self (Mock.set_run_count i s)))
      with (Mock.connected (Mock.self s)).
    change (Mock.simulated_reboot_after (Mock.self (Mock.set_run_count i s)))
      with (Mock.simulated_reboot_after (Mock.self s)).
    change (Mock.run_count (Mock.self (Mock.set_run_count i s))) with i.
    set (after := Mock.simulated_reboot_after (Mock.self s)) in *.
    assert (R : forall s1,
               Mock.connected (Mock.self s1) = true ->
               Mock.simulated_reboot_after (Mock.self s1) = after ->
               Mock.boot_time (Mock.self s1) = Mock.boot_time (Mock.self s) ->
               Mock.draws s1 = Mock.draws s ->
               forall r,
                 r = Mock.turn_result after i ->
                 let s2 := match pause with
                           | Some ms => Mock.after_sleep w ms s1
                           | None => s1
                           end in
                 fst (match Mock.turns w (S (S fuel)) pause (i + 1) n s2 with
                      | (Return rest, s3) => (Return (r :: rest), s3)
                      | (Raise e, s3) => (Raise e, s3)
                      | (Diverge, s3) => (Diverge, s3)
                      end)
                 = Return (Mock.turn_results after i (S n))
                 /\ Mock.boot_time
                      (Mock.self
                         (snd (match Mock.turns w (S (S fuel)) pause (i + 1)
                                       n s2 with
                               | (Return rest, s3) => (Return (r :: rest), s3)
                               | (Raise e, s3) => (Raise e, s3)
                               | (Diverge, s3) => (Diverge, s3)
                               end)))
                    = Mock.boot_time (Mock.self s)
                 /\ Mock.draws
                      (snd (match Mock.turns w (S (S fuel)) pause (i + 1) n
                                    s2 with
                            | (Return rest, s3) => (Return (r :: rest), s3)
                            | (Raise e, s3) => (Raise e, s3)
                            | (Diverge, s3) => (Diverge, s3)
                            end))
                    = Mock.draws s).
    { intros s1 C1 A1 B1 D1 r -> s2.
      assert (C2 : Mock.connected (Mock.self s2) = true)
        by (subst s2; destruct pause; exact C1).
      assert (A2 : Mock.simulated_reboot_after (Mock.self s2) = after)
        by (subst s2; destruct pause; exact A1).
      assert (B2 : Mock.boot_time (Mock.self s2) = Mock.boot_time (Mock.self s))
        by (subst s2; destruct pause; exact B1).
      assert (D2 : Mock.draws s2 = Mock.draws s)
        by (subst s2; destruct pause; exact D1).
      destruct (IH (i + 1) s2 Hp (or_introl C2)) as (I1 & I2 & I3).
      rewrite A2 in I1.
      destruct (Mock.turns w (S (S fuel)) pause (i + 1) n s2)
        as [[rest|e|] s3]; cbn [fst snd] in *; try discriminate I1.
      injection I1 as ->. repeat split; congruence. }
    destruct (Mock.connected (Mock.self s)) eqn:C; cbn [fst snd].
    + apply R; try reflexivity. exact C.
    + destruct H as [H|H]; [discriminate H|].
      replace (i <? after) with true by (symmetry; apply Z.ltb_lt; exact H).
      cbn [fst snd]. apply R; try reflexivity.
      unfold Mock.turn_result.
      replace (i =? after) with false by (symmetry; apply Z.eqb_neq; lia).
      reflexivity.
Qed.

Lemma mock_turns_results_witness :
  fst (Mock.turns Mock.counting 2 (Some 1000) 0 10 Mock.demo)
  = Return (Mock.turn_results 5 0 10)
  /\ Mock.boot_time
       (Mock.self (snd (Mock.turns Mock.counting 2 (Some 1000) 0 10
                          Mock.demo)))
     = Mock.boot_time (Mock.self Mock.demo)
  /\ Mock.draws (snd (Mock.turns Mock.counting 2 (Some 1000) 0 10 Mock.demo))
     = Mock.draws Mock.demo.
Proof.
  apply (mock_turns_results Mock.counting 0 (Some 1000) 10 0 Mock.demo).
  - intros ms [= <-]. lia.
  - right. reflexivity.
Defined.

(** X21: an object that is not connected when [run_count] has already
    reached [simulated_reboot_after] never connects: every later turn fails
    with the threefold "Reconnect failed" and the command is never
    simulated. *)
Theorem mock_turns_never_connect w fuel pause n :
  forall i s,
    (forall ms, pause = Some ms -> 0 <= ms) ->
    Mock.connected (Mock.self s) = false ->
    Mock.simulated_reboot_after (Mock.self s) <= i ->
    fst (Mock.turns w (S (S fuel)) pause i n s)
    = Return (repeat
                (Raise (RemoteExecutionError
                          "Reconnect failed: Reconnect failed: Reconnect failed."))
                n)
    /\ Mock.connected
         (Mock.self (snd (Mock.turns w (S (S fuel)) pause i n s))) = false.
Proof.
  induction n as [|n IH]; intros i s Hp C A.
  - cbn. split; [reflexivity|exact C].
  - rewrite (mock_turns_step w fuel pause i n s Hp). cbv zeta.
    rewrite (mock_stream_execute_eq w fuel "uptime"
               (Mock.set_run_count i s)). cbv zeta.
    change (Mock.connected (Mock.self (Mock.set_run_count i s)))
      with (Mock.connected (Mock.self s)).
    change (Mock.simulated_reboot_after (Mock.self (Mock.set_run_count i s)))
      with (Mock.simulated_reboot_after (Mock.self s)).
    change (Mock.run_count (Mock.self (Mock.set_run_count i s))) with i.
    rewrite C.
    replace (i <? Mock.simulated_reboot_after (Mock.self s)) with false
      by (symmetry; apply Z.ltb_ge; exact A).
    cbn [fst snd].
    set (s2 := match pause with
               | Some ms => Mock.after_sleep w ms _
               | None => _
               end).
    assert (C2 : Mock.connected (Mock.self s2) = false)
      by (subst s2; destruct pause; reflexivity).
    assert (A2 : Mock.simulated_reboot_after (Mock.self s2) <= i + 1)
      by (subst s2; destruct pause; cbn; lia).
    destruct (IH (i + 1) s2 Hp C2 A2) as (I1 & I2).
    destruct (Mock.turns w (S (S fuel)) pause (i + 1) n s2)
      as [[rest|e|] s3]; cbn [fst snd] in *; try discriminate I1.
    injection I1 as ->. split; [reflexivity|exact I2].
Qed.

Lemma mock_turns_never_connect_witness :
  fst (Mock.turns Mock.counting 2 None 0 3
         (Mock.set_simulated_reboot_after 0 Mock.demo))
  = Return (repeat
              (Raise (RemoteExecutionError
                        "Reconnect failed: Reconnect failed: Reconnect failed."))
              3)
  /\ Mock.connected
       (Mock.self (snd (Mock.turns Mock.counting 2 None 0 3
                          (Mock.set_simulated_reboot_after 0 Mock.demo))))
     = false.
Proof.
  apply (mock_turns_never_connect Mock.counting 0 None 3 0
           (Mock.set_simulated_reboot_after 0 Mock.demo)).
  - intros ms H. discriminate H.
  - reflexivity.
  - cbn. lia.
Defined.

(** *** The simulated recovery loop *)

Lemma mock_get_boot_time_eq w s :
  Mock._get_boot_time w s
  = if Mock.run_count (Mock.self s)
       =? Mock.simulated_reboot_after (Mock.self s)
    then Mock._simulate_boot_time w s
    else (Return (Mock.boot_time (Mock.self s)), s).
Proof.
  unfold Mock._get_boot_time, Mock.bind, Mock.get.
  destruct (_ =? _); reflexivity.
Qed.

Lemma mock_simulate_boot_time_self w s :
  exists b,
    Mock._simulate_boot_time w s
    = (Return b,
       Mock.mkState (Mock.self s) (S (Mock.draws s)) (Mock.clock s)
                    (Mock.sleeps s)).
Proof. eexists. reflexivity. Qed.

Lemma mock_wait_loop_step w fuel start timeout interval s :
  Mock.wait_loop w (S fuel) start timeout interval s
  = if Mock.clock s - start <? timeout then
      match Mock._get_boot_time w s with
      | (Return new_boot_time, s1) =>
          if negb (String.eqb new_boot_time (Mock.boot_time (Mock.self s1)))
          then (Return true, s1)
          else if interval <? 0
               then (Raise (ValueError "sleep length must be non-negative"),
                     s1)
               else Mock.wait_loop w fuel start timeout interval
                      (Mock.after_sleep w interval s1)
      | (Raise e, s1) => (Raise e, s1)
      | (Diverge, s1) => (Diverge, s1)
      end
    else (Raise Mock.timeout_error, s).
Proof.
  cbn [Mock.wait_loop]. unfold Mock.bind at 1. unfold Mock.time_time.
  cbv beta iota.
  destruct (Mock.clock s - start <? timeout); [|reflexivity].
  unfold Mock.bind at 1.
  destruct (Mock._get_boot_time w s) as [[b|e|] s1]; try reflexivity.
  unfold Mock.bind at 1. unfold Mock.get at 1.
  destruct (negb _); [reflexivity|].
  unfold Mock.bind, Mock.time_sleep.
  destruct (interval <? 0); reflexivity.
Qed.

Lemma mock_get_boot_time_self w s :
  exists b s1,
    Mock._get_boot_time w s = (Return b, s1) /\ Mock.self s1 = Mock.self s.
Proof.
  rewrite mock_get_boot_time_eq. destruct (_ =? _).
  - destruct (mock_simulate_boot_time_self w s) as (b & ->).
    eexists. eexists. split; reflexivity.
  - eexists. eexists. split; reflexivity.
Qed.

Lemma mock_wait_loop_self w fuel :
  forall start timeout interval s,
    Mock.self (snd (Mock.wait_loop w fuel start timeout interval s))
    = Mock.self s.
Proof.
  induction fuel as [|fuel IH]; intros start timeout interval s;
    [reflexivity|].
  rewrite mock_wait_loop_step.
  destruct (Mock.clock s - start <? timeout); [|reflexivity].
  destruct (mock_get_boot_time_self w s) as (b & s1 & -> & E).
  destruct (negb _); [exact E|].
  destruct (interval <? 0); [exact E|].
  rewrite IH. exact E.
Qed.

(** X22: the simulated recovery loop never changes the object: whether it
    reports the host back or times out, [connected] and [boot_time] are what
    they were (the real loop sets both on success). *)
Theorem mock_recovery_keeps_object w fuel timeout interval s :
  Mock.self (snd (Mock._wait_for_reboot_and_reconnect w fuel timeout
                    interval s))
  = Mock.self s.
Proof.
  unfold Mock._wait_for_reboot_and_reconnect, Mock.bind, Mock.time_time.
  apply mock_wait_loop_self.
Qed.

Lemma mock_wait_loop_times_out w fuel :
  forall start timeout interval s,
    Mock.run_count (Mock.self s) <> Mock.simulated_reboot_after (Mock.self s) ->
    0 < interval ->
    (1 <= fuel)%nat ->
    timeout - (Mock.clock s - start) <= interval * (Z.of_nat fuel - 1) ->
    fst (Mock.wait_loop w fuel start timeout interval s)
    = Raise Mock.timeout_error
    /\ Mock.draws (snd (Mock.wait_loop w fuel start timeout interval s))
       = Mock.draws s
    /\ timeout
       <= Mock.clock (snd (Mock.wait_loop w fuel start timeout interval s))
          - start.
Proof.
  induction fuel as [|fuel IH]; intros start timeout interval s N Hi Hf Hb;
    [lia|].
  rewrite mock_wait_loop_step.
  destruct (Mock.clock s - start <? timeout) eqn:G.
  - apply Z.ltb_lt in G. rewrite mock_get_boot_time_eq.
    replace (_ =? _) with false by (symmetry; apply Z.eqb_neq; exact N).
    rewrite String.eqb_refl. cbn [negb].
    replace (interval <? 0) with false by (symmetry; apply Z.ltb_ge; lia).
    set (s2 := Mock.after_sleep w interval s).
    assert (Hc : Mock.clock s + interval <= Mock.clock s2) by (cbn; lia).
    destruct (IH start timeout interval s2 N Hi ltac:(nia) ltac:(nia))
      as (I1 & I2 & I3).
    split; [exact I1|]. split; [exact I2|exact I3].
  - apply Z.ltb_ge in G. cbn [fst snd].
    split; [reflexivity|]. split; [reflexivity|lia].
Qed.

(** X23: when no reboot is simulated ([run_count] differs from
    [simulated_reboot_after]) the simulated recovery loop, with a positive
    poll interval, always ends in its time-out error, once the time-out has
    elapsed; it draws no random number. *)
Theorem mock_recovery_times_out w fuel timeout interval s :
  Mock.run_count (Mock.self s) <> Mock.simulated_reboot_after (Mock.self s) ->
  0 < interval ->
  (recovery_fuel timeout interval <= fuel)%nat ->
  fst (Mock._wait_for_reboot_and_reconnect w fuel timeout interval s)
  = Raise Mock.timeout_error
  /\ Mock.draws (snd (Mock._wait_for_reboot_and_reconnect w fuel timeout
                        interval s)) = Mock.draws s
  /\ timeout
     <= Mock.clock (snd (Mock._wait_for_reboot_and_reconnect w fuel timeout
                           interval s)) - Mock.clock s.
Proof.
  intros N Hi Hf.
  destruct (recovery_fuel_enough _ _ _ Hi Hf) as (H1 & H2).
  unfold Mock._wait_for_reboot_and_reconnect, Mock.bind, Mock.time_time.
  apply mock_wait_loop_times_out; try assumption. lia.
Qed.

Lemma mock_recovery_times_out_witness :
  fst (Mock._wait_for_reboot_and_reconnect Mock.counting 14 60000 5000
         Mock.demo)
  = Raise Mock.timeout_error
  /\ Mock.draws (snd (Mock._wait_for_reboot_and_reconnect Mock.counting 14
                        60000 5000 Mock.demo)) = Mock.draws Mock.demo
  /\ 60000
     <= Mock.clock (snd (Mock._wait_for_reboot_and_reconnect Mock.counting 14
                           60000 5000 Mock.demo)) - Mock.clock Mock.demo.
Proof.
  apply (mock_recovery_times_out Mock.counting 14 60000 5000 Mock.demo).
  - cbn. lia.
  - lia.
  - vm_compute. lia.
Defined.

(** * The recovery loop and the stored boot time *)

Lemma wait_loop_ignores_boot_time w fuel :
  forall start old old' timeout interval s v,
    wait_loop w fuel start old timeout interval (set_boot_time v s)
    = match fst (wait_loop w fuel start old' timeout interval s) with
      | Return _ => wait_loop w fuel start old' timeout interval s
      | r => (r, set_boot_time v
                   (snd (wait_loop w fuel start old' timeout interval s)))
      end.
Proof.
  induction fuel as [|fuel IH]; intros start old old' timeout interval s v;
    [reflexivity|].
  rewrite !wait_loop_step.
  change (clock (set_boot_time v s)) with (clock s).
  destruct (clock s - start <? timeout); [|reflexivity].
  cbv zeta.
  change (probe_outcome w (self (set_boot_time v s)) (runs (set_boot_time v s)))
    with (probe_outcome w (self s) (runs s)).
  destruct (truthy_str _); [reflexivity|].
  destruct (interval <? 0); [reflexivity|].
  apply (IH start old old' timeout interval
            (after_sleep w interval (after_run w (uptime_argv (self s)) s)) v).
Qed.

(** X24: the recovery loop does not look at the boot time stored before it:
    it ends the same way whatever that value is, and when it succeeds it
    leaves the same object.  It cannot tell a host that rebooted from one
    that was only out of reach. *)
Theorem recovery_ignores_stored_boot_time w fuel timeout interval s v :
  fst (_wait_for_reboot_and_reconnect w fuel timeout interval
         (set_boot_time v s))
  = fst (_wait_for_reboot_and_reconnect w fuel timeout interval s)
  /\ match fst (_wait_for_reboot_and_reconnect w fuel timeout interval s) with
     | Return _ =>
         snd (_wait_for_reboot_and_reconnect w fuel timeout interval
                (set_boot_time v s))
         = snd (_wait_for_reboot_and_reconnect w fuel timeout interval s)
     | _ =>
         snd (_wait_for_reboot_and_reconnect w fuel timeout interval
                (set_boot_time v s))
         = set_boot_time v
             (snd (_wait_for_reboot_and_reconnect w fuel timeout interval s))
     end.
Proof.
  rewrite !_wait_for_reboot_and_reconnect_eq.
  change (entered_recovery (set_boot_time v s))
    with (set_boot_time v (entered_recovery s)).
  change (clock (set_boot_time v s)) with (clock s).
  rewrite (wait_loop_ignores_boot_time w fuel (clock s)
             (boot_time (self (set_boot_time v s))) (boot_time (self s))
             timeout interval (entered_recovery s) v).
  destruct (wait_loop w fuel (clock s) (boot_time (self s)) timeout interval
              (entered_recovery s)) as [[b|e|] s'];
    split; reflexivity.
Qed.
